(** * Midea air-conditioner attribute synchronizer

    A shallow embedding of [MideaACDevice] (the AC device class of
    homebridge-midea-ac): the status merge [process_message], the query
    builder [build_query], the command builders [set_attribute],
    [set_target_temperature] and [set_swing], followed by the properties
    of these functions that the specification states.

    The class is written in TypeScript and relies on the run-time
    behaviour of JavaScript objects: truthiness tests, property
    enumeration order, assignment to computed property names.  The first
    part of the file models exactly that much of JavaScript. *)

From Stdlib Require Import ZArith List String Ascii Bool DecimalString.
From Stdlib Require Strings.Byte.
Import ListNotations.

Local Open Scope string_scope.
Local Open Scope Z_scope.

(* ================================================================== *)
(** ** JavaScript values *)

(** The values that flow through the class: [undefined], booleans,
    numbers, strings and the two-element arrays [[power, speed]] of the
    fresh-air commands.  Numbers are integers here: the only number with
    a fractional part, a half-degree TARGET_TEMPERATURE, is copied and
    never computed with. *)
Inductive value : Type :=
| VUndef
| VBool (b : bool)
| VNum (n : Z)
| VStr (s : string)
| VPair (a b : value).

(** [if (v)]: ToBoolean. *)
Definition truthy (v : value) : bool :=
  match v with
  | VUndef => false
  | VBool b => b
  | VNum n => negb (n =? 0)
  | VStr s => negb (s =? "")%string
  | VPair _ _ => true
  end.

(** ToNumber, with [None] for NaN.  The attributes compared as numbers
    are declared [number]; a string or an array in their place is outside
    the declared types and is taken as NaN. *)
Definition to_number (v : value) : option Z :=
  match v with
  | VNum n => Some n
  | VBool true => Some 1
  | VBool false => Some 0
  | VUndef => None
  | VStr _ => None
  | VPair _ _ => None
  end.

(** [v > n] for a number [n]; a comparison with NaN is false. *)
Definition js_gt (v : value) (n : Z) : bool :=
  match to_number v with
  | Some z => n <? z
  | None => false
  end.

(** [s === v] for a string [s]. *)
Definition strict_eq_str (s : string) (v : value) : bool :=
  match v with
  | VStr s' => (s =? s')%string
  | _ => false
  end.

(** [String.prototype.toLowerCase] on ASCII. *)
Definition lower_ascii (c : ascii) : ascii :=
  let n := nat_of_ascii c in
  if ((65 <=? n) && (n <=? 90))%nat then ascii_of_nat (n + 32) else c.

Fixpoint toLowerCase (s : string) : string :=
  match s with
  | EmptyString => EmptyString
  | String c r => String (lower_ascii c) (toLowerCase r)
  end.

(** [Array.prototype.includes] on an array of strings. *)
Definition includes (l : list string) (k : string) : bool :=
  existsb (String.eqb k) l.

(* ================================================================== *)
(** ** JavaScript objects *)

(** An object whose property names are not integer-like keeps its
    properties in insertion order; [Object.keys] lists them in that
    order.  A property can hold [undefined] and still be listed. *)
Definition obj : Type := list (string * value).

(** [o[k]]; a missing property reads as [undefined]. *)
Fixpoint obj_get (o : obj) (k : string) : value :=
  match o with
  | [] => VUndef
  | (k', v) :: r => if (k =? k')%string then v else obj_get r k
  end.

(** [o[k] = v]: overwrite in place, or append a new property. *)
Fixpoint obj_set (o : obj) (k : string) (v : value) : obj :=
  match o with
  | [] => [(k, v)]
  | (k', v') :: r =>
      if (k =? k')%string then (k', v) :: r else (k', v') :: obj_set r k v
  end.

(** [Object.keys(o)]. *)
Definition Object_keys (o : obj) : list string := map fst o.

(** ** Objects with integer-like property names *)

(** The two speed tables are object literals whose property names are
    the integers 0, 20, ..., 100.  JavaScript enumerates integer-like
    property names in ascending numeric order, whatever the order in
    which the literal lists them.  A table is kept as the literal writes
    it, and [Object_entries] returns its entries the way the language
    enumerates them. *)
Definition int_table : Type := list (Z * string).

Fixpoint insert_entry (e : Z * string) (l : int_table) : int_table :=
  match l with
  | [] => [e]
  | e' :: r => if fst e <=? fst e' then e :: l else e' :: insert_entry e r
  end.

Definition Object_entries (t : int_table) : int_table :=
  fold_right insert_entry [] t.

Definition Object_values (t : int_table) : list string :=
  map snd (Object_entries t).

(** [Object.keys(t).find(key => t[key] === v)], already passed through
    [Number.parseInt]. *)
Fixpoint find_key (entries : int_table) (v : value) : option Z :=
  match entries with
  | [] => None
  | (k, s) :: r => if strict_eq_str s v then Some k else find_key r v
  end.

(* ================================================================== *)
(** ** The device *)

Definition FRESH_AIR_FAN_SPEEDS : int_table :=
  [ (0, "Off"); (20, "Silent"); (40, "Low");
    (60, "Medium"); (80, "High"); (100, "Full") ].

Definition FRESH_AIR_FAN_SPEEDS_REVERSE : int_table :=
  [ (100, "Full"); (80, "High"); (60, "Medium");
    (40, "Low"); (20, "Silent"); (0, "Off") ].

(** The fields of [MideaACDevice] that the modelled methods read or
    write.  [version] is the protocol version of the base class. *)
Record device : Type := mkDevice {
  version : Z;
  attributes : obj;
  fresh_air_version : option Z;
  used_subprotocol : bool;
  bb_sn8_flag : value;
  bb_timer : value
}.

Definition with_attributes (d : device) (a : obj) : device :=
  mkDevice (version d) a (fresh_air_version d) (used_subprotocol d)
           (bb_sn8_flag d) (bb_timer d).

Definition with_fresh_air_version (d : device) (fv : option Z) : device :=
  mkDevice (version d) (attributes d) fv (used_subprotocol d)
           (bb_sn8_flag d) (bb_timer d).

(** [this.attributes.NAME]. *)
Definition attr (d : device) (name : string) : value :=
  obj_get (attributes d) name.

(** The attribute object assigned by the constructor.  The optional
    attributes of the interface (the temperatures, the humidity, the two
    energy counters and FRESH_AIR_MODE) are not properties of it. *)
Definition initial_attributes : obj :=
  [ ("PROMPT_TONE", VBool false);
    ("POWER", VBool false);
    ("MODE", VNum 0);
    ("TARGET_TEMPERATURE", VNum 24);
    ("FAN_SPEED", VNum 102);
    ("SWING_VERTICAL", VBool false);
    ("SWING_HORIZONTAL", VBool false);
    ("SMART_EYE", VBool false);
    ("DRY", VBool false);
    ("AUX_HEATING", VBool false);
    ("BOOST_MODE", VBool false);
    ("SLEEP_MODE", VBool false);
    ("FROST_PROTECT", VBool false);
    ("COMFORT_MODE", VBool false);
    ("ECO_MODE", VBool false);
    ("NATURAL_WIND", VBool false);
    ("TEMP_FAHRENHEIT", VBool false);
    ("SCREEN_DISPLAY", VBool false);
    ("SCREEN_DISPLAY_NEW", VBool false);
    ("FULL_DUST", VBool false);
    ("INDIRECT_WIND", VBool false);
    ("BREEZELESS", VBool false);
    ("REALTIME_POWER", VNum 0);
    ("FRESH_AIR_POWER", VBool false);
    ("FRESH_AIR_FAN_SPEED", VNum 0);
    ("FRESH_AIR_1", VBool false);
    ("FRESH_AIR_2", VBool false) ].

(** The device as the constructor leaves it. *)
Definition new_device (ver : Z) : device :=
  mkDevice ver initial_attributes None false (VBool false) (VBool false).

(** [if (this.fresh_air_version)]. *)
Definition version_known (d : device) : bool :=
  match fresh_air_version d with
  | Some n => negb (n =? 0)
  | None => false
  end.

(** The property name of [message[this.fresh_air_version]]. *)
Definition version_key (d : device) : string :=
  match fresh_air_version d with
  | Some n => NilZero.string_of_int (Z.to_int n)
  | None => "undefined"
  end.

(* ================================================================== *)
(** ** Messages *)

(** The message classes imported from [MideaACMessage]. *)
Inductive message_class : Type :=
| MessageQuery
| MessageNewProtocolQuery
| MessagePowerQuery
| MessageSubProtocolQuery
| MessageGeneralSet
| MessageSubProtocolSet
| MessageNewProtocolSet
| MessageSwitchDisplay.

Definition message_class_eqb (a b : message_class) : bool :=
  match a, b with
  | MessageQuery, MessageQuery
  | MessageNewProtocolQuery, MessageNewProtocolQuery
  | MessagePowerQuery, MessagePowerQuery
  | MessageSubProtocolQuery, MessageSubProtocolQuery
  | MessageGeneralSet, MessageGeneralSet
  | MessageSubProtocolSet, MessageSubProtocolSet
  | MessageNewProtocolSet, MessageNewProtocolSet
  | MessageSwitchDisplay, MessageSwitchDisplay => true
  | _, _ => false
  end.

(** Modelled from the spec: the message classes of [MideaACMessage] are
    not part of the sources.  An outbound message is its class, the
    arguments of its constructor and the properties that the device
    class assigns to it; the defaults a class gives its own fields and
    the byte encoding are left out. *)
Record message : Type := mkMessage {
  msg_class : message_class;
  msg_args : list Z;
  msg_fields : obj
}.

(** [new C(args)]. *)
Definition new_message (c : message_class) (args : list Z) : message :=
  mkMessage c args [].

(** [message[k] = v]. *)
Definition set_field (m : message) (k : string) (v : value) : message :=
  mkMessage (msg_class m) (msg_args m) (obj_set (msg_fields m) k v).

(** [message.k]. *)
Definition field (m : message) (k : string) : value :=
  obj_get (msg_fields m) k.

(** [message instanceof C]; the two set classes do not extend one
    another. *)
Definition instanceof (m : message) (c : message_class) : bool :=
  message_class_eqb (msg_class m) c.

(** Modelled from the spec: [MessageACResponse], the decoded response,
    is not part of the sources.  The device class asks it two things:
    whether it belongs to the sub-protocol, and, through
    [get_body_attribute], the "get body field by name" accessor, the
    value of a body field, which is [undefined] when the field is not
    present in this response.  The value of a present field is the
    plain boolean or number: the device class stores it as the
    attribute and tests the attribute itself. *)
Record response : Type := mkResponse {
  resp_used_subprotocol : bool;
  get_body_attribute : string -> value
}.

(** The response that carries the fields of [body] and no others. *)
Definition status_report (body : obj) : response :=
  mkResponse false (obj_get body).

(** The same, from a device that speaks the sub-protocol. *)
Definition subprotocol_report (body : obj) : response :=
  mkResponse true (obj_get body).

(* ================================================================== *)
(** ** [build_query] *)

Definition build_query (d : device) : list message :=
  if used_subprotocol d then
    [ new_message MessageSubProtocolQuery [version d; 16];
      new_message MessageSubProtocolQuery [version d; 17];
      new_message MessageSubProtocolQuery [version d; 48] ]
  else
    [ new_message MessageQuery [version d];
      new_message MessageNewProtocolQuery [version d];
      new_message MessagePowerQuery [version d] ].

(* ================================================================== *)
(** ** [process_message] *)

(** What the body of [process_message] updates as it runs: the attribute
    object of the device and the locals [new_status] and
    [has_fresh_air]. *)
Record merge : Type := mkMerge {
  m_attributes : obj;
  m_new_status : obj;
  m_has_fresh_air : bool
}.

(** The sub-protocol block that opens the method. *)
Definition note_subprotocol (d : device) (msg : response) : device :=
  if resp_used_subprotocol msg then
    mkDevice (version d) (attributes d) (fresh_air_version d) true
      (if truthy (get_body_attribute msg "sn8_flag")
       then get_body_attribute msg "sn8_flag" else bb_sn8_flag d)
      (if truthy (get_body_attribute msg "timer")
       then get_body_attribute msg "timer" else bb_timer d)
  else d.

(** One turn of the loop over [Object.keys(this.attributes)]. *)
Definition merge_field (msg : response) (st : merge) (status : string)
  : merge :=
  if truthy (get_body_attribute msg status) then
    let value := get_body_attribute msg status in
    mkMerge (obj_set (m_attributes st) status value)
            (obj_set (m_new_status st) status value)
            (if (status =? "FRESH_AIR_POWER")%string then true
             else m_has_fresh_air st)
  else st.

(** The whole loop.  The key list is taken once, before the first turn;
    a turn only assigns to a property that already exists. *)
Definition merge_fields (msg : response) (a : obj) : merge :=
  fold_left (merge_field msg) (Object_keys a) (mkMerge a [] false).

(** The loop over the entries of the speed table, with its [break]. *)
Fixpoint fresh_air_scan (entries : int_table) (a : obj) : obj :=
  match entries with
  | [] => a
  | (k, v) :: rest =>
      if js_gt (obj_get a "FRESH_AIR_FAN_SPEED") k then a
      else fresh_air_scan rest (obj_set a "FRESH_AIR_MODE" (VStr v))
  end.

(** The block [if (has_fresh_air) { ... }]. *)
Definition derive_fresh_air_mode (st : merge) : merge :=
  if m_has_fresh_air st then
    let a :=
      if truthy (obj_get (m_attributes st) "FRESH_AIR_POWER")
      then fresh_air_scan (Object_entries FRESH_AIR_FAN_SPEEDS_REVERSE)
                          (m_attributes st)
      else obj_set (m_attributes st) "FRESH_AIR_MODE" (VStr "Off") in
    mkMerge a
            (obj_set (m_new_status st) "FRESH_AIR_MODE"
                     (obj_get a "FRESH_AIR_MODE"))
            (m_has_fresh_air st)
  else st.

(** The block that forces INDIRECT_WIND off. *)
Definition correct_indirect_wind (st : merge) : merge :=
  if negb (truthy (obj_get (m_attributes st) "POWER"))
     || (includes (Object_keys (m_new_status st)) "SWING_VERTICAL"
         && truthy (obj_get (m_attributes st) "SWING_VERTICAL"))
  then mkMerge (obj_set (m_attributes st) "INDIRECT_WIND" (VBool false))
               (obj_set (m_new_status st) "INDIRECT_WIND" (VBool false))
               (m_has_fresh_air st)
  else st.

(** The block that forces SCREEN_DISPLAY off. *)
Definition correct_screen_display (st : merge) : merge :=
  if negb (truthy (obj_get (m_attributes st) "POWER"))
  then mkMerge (obj_set (m_attributes st) "SCREEN_DISPLAY" (VBool false))
               (obj_set (m_new_status st) "SCREEN_DISPLAY" (VBool false))
               (m_has_fresh_air st)
  else st.

(** The block that learns the fresh-air version. *)
Definition learn_fresh_air_version (d : device) : device :=
  if truthy (attr d "FRESH_AIR_1") then with_fresh_air_version d (Some 1)
  else if truthy (attr d "FRESH_AIR_2") then with_fresh_air_version d (Some 2)
  else d.

(** [process_message] on a decoded response: the device after the call
    and the returned [new_status]. *)
Definition process_message (d : device) (msg : response) : device * obj :=
  let d1 := note_subprotocol d msg in
  let st := correct_screen_display
              (correct_indirect_wind
                 (derive_fresh_air_mode
                    (merge_fields msg (attributes d1)))) in
  (learn_fresh_air_version (with_attributes d1 (m_attributes st)),
   m_new_status st).

(* ================================================================== *)
(** ** Building the status-set commands *)

Definition make_message_set (d : device) : message :=
  let message := new_message MessageGeneralSet [version d] in
  let message := set_field message "power" (attr d "POWER") in
  let message := set_field message "prompt_tone" (attr d "PROMPT_TONE") in
  let message := set_field message "mode" (attr d "MODE") in
  let message :=
    set_field message "target_temperature" (attr d "TARGET_TEMPERATURE") in
  let message := set_field message "fan_speed" (attr d "FAN_SPEED") in
  let message :=
    set_field message "swing_vertical" (attr d "SWING_VERTICAL") in
  let message :=
    set_field message "swing_horizontal" (attr d "SWING_HORIZONTAL") in
  let message := set_field message "boost_mode" (attr d "BOOST_MODE") in
  let message := set_field message "smart_eye" (attr d "SMART_EYE") in
  let message := set_field message "dry" (attr d "DRY") in
  let message := set_field message "eco_mode" (attr d "ECO_MODE") in
  let message := set_field message "aux_heating" (attr d "AUX_HEATING") in
  let message := set_field message "sleep_mode" (attr d "SLEEP_MODE") in
  let message := set_field message "frost_protect" (attr d "FROST_PROTECT") in
  let message := set_field message "comfort_mode" (attr d "COMFORT_MODE") in
  let message := set_field message "natural_wind" (attr d "NATURAL_WIND") in
  let message :=
    set_field message "temp_fahrenheit" (attr d "TEMP_FAHRENHEIT") in
  message.

Definition make_subprotocol_message_set (d : device) : message :=
  let message := new_message MessageSubProtocolSet [version d] in
  let message := set_field message "power" (attr d "POWER") in
  let message := set_field message "prompt_tone" (attr d "PROMPT_TONE") in
  let message := set_field message "aux_heating" (attr d "AUX_HEATING") in
  let message := set_field message "mode" (attr d "MODE") in
  let message :=
    set_field message "target_temperature" (attr d "TARGET_TEMPERATURE") in
  let message := set_field message "fan_speed" (attr d "FAN_SPEED") in
  let message := set_field message "boost_mode" (attr d "BOOST_MODE") in
  let message := set_field message "dry" (attr d "DRY") in
  let message := set_field message "eco_mode" (attr d "ECO_MODE") in
  let message := set_field message "sleep_mode" (attr d "SLEEP_MODE") in
  let message := set_field message "sn8_flag" (bb_sn8_flag d) in
  let message := set_field message "timer" (bb_timer d) in
  message.

Definition make_message_unique_set (d : device) : message :=
  if used_subprotocol d then make_subprotocol_message_set d
  else make_message_set d.

(* ================================================================== *)
(** ** [set_attribute] *)

Definition sensor_only : list string :=
  [ "INDOOR_TEMPERATURE"; "OUTDOOR_TEMPERATURE"; "INDOOR_HUMIDITY";
    "FULL_DUST"; "TOTAL_ENERGY_CONSUMPTION"; "CURRENT_ENERGY_CONSUMPTION";
    "REALTIME_POWER" ].

Definition exclusive_modes : list string :=
  [ "BOOST_MODE"; "SLEEP_MODE"; "FROST_PROTECT"; "COMFORT_MODE"; "ECO_MODE" ].

(** The last [else] of the routing chain: the status-set command of the
    selected family. *)
Definition generic_set (d : device) (k : string) (v : value) : message :=
  let message := make_message_unique_set d in
  if includes exclusive_modes k then
    if instanceof message MessageGeneralSet
       || instanceof message MessageSubProtocolSet
    then
      let message := set_field message "sleep_mode" (VBool false) in
      let message := set_field message "boost_mode" (VBool false) in
      let message := set_field message "eco_mode" (VBool false) in
      let message :=
        if instanceof message MessageGeneralSet then
          set_field (set_field message "frost_protect" (VBool false))
                    "comfort_mode" (VBool false)
        else message in
      let message := set_field message (toLowerCase k) v in
      if (k =? "MODE")%string then set_field message "power" (VBool true)
      else message
    else message
  else message.

(** The body of the loop of [set_attribute] for one entry [(k, v)]: the
    device after it and the value of the local [message], [None] for
    [undefined]. *)
Definition set_attribute_entry (d : device) (k : string) (v : value)
  : device * option message :=
  if negb (includes sensor_only k) then
    if (k =? "PROMPT_TONE")%string then
      (with_attributes d (obj_set (attributes d) "PROMPT_TONE" v), None)
    else if (k =? "SCREEN_DISPAY")%string then
      if truthy (attr d "SCREEN_DISPLAY_NEW") then
        let message := new_message MessageNewProtocolSet [version d] in
        let message := set_field message "screen_display" v in
        let message := set_field message "prompt_tone" (attr d "PROMPT_TONE") in
        (d, Some message)
      else (d, Some (new_message MessageSwitchDisplay [version d]))
    else if includes ["INDIRECT_WIND"; "BREEZELESS"] k then
      let message := new_message MessageNewProtocolSet [version d] in
      let message := set_field message (toLowerCase k) v in
      let message := set_field message "prompt_tone" (attr d "PROMPT_TONE") in
      (d, Some message)
    else if (k =? "FRESH_AIR_POWER")%string then
      if version_known d then
        let message := new_message MessageNewProtocolSet [version d] in
        (d, Some (set_field message (version_key d)
                            (VPair v (attr d "FRESH_AIR_FAN_SPEED"))))
      else (d, None)
    else if (k =? "FRESH_AIR_MODE")%string && version_known d then
      if existsb (fun s => strict_eq_str s v)
                 (Object_values FRESH_AIR_FAN_SPEEDS) then
        let speed := find_key (Object_entries FRESH_AIR_FAN_SPEEDS) v in
        let fresh_air :=
          match speed with
          | Some n =>
              if 0 <? n then VPair (VBool true) (VNum n)
              else VPair (VBool false) (attr d "FRESH_AIR_FAN_SPEED")
          | None => VPair (VBool false) (attr d "FRESH_AIR_FAN_SPEED")
          end in
        let message := new_message MessageNewProtocolSet [version d] in
        (d, Some (set_field message (version_key d) fresh_air))
      else if negb (truthy v) then
        let message := new_message MessageNewProtocolSet [version d] in
        (d, Some (set_field message (version_key d)
                            (VPair (VBool false)
                                   (attr d "FRESH_AIR_FAN_SPEED"))))
      else (d, None)
    else if (k =? "FRESH_AIR_FAN_SPEED")%string && version_known d then
      let message := new_message MessageNewProtocolSet [version d] in
      let fresh_air :=
        if js_gt v 0 then VPair (VBool true) v
        else VPair (VBool false) (attr d "FRESH_AIR_FAN_SPEED") in
      (d, Some (set_field message (version_key d) fresh_air))
    else (d, Some (generic_set d k v))
  else (d, None).

(** Modelled from the spec: [build_send] belongs to the base class
    [MideaDevice], which is not part of the sources.  Sending frames,
    encrypts and transmits the message and waits for no response; here
    it appends the message to the list of messages sent.

    [set_attribute] on the entries of its argument, in their order: the
    device after the call and the messages handed to [build_send]. *)
Fixpoint set_attribute (d : device) (entries : obj) : device * list message :=
  match entries with
  | [] => (d, [])
  | (k, v) :: rest =>
      let (d1, message) := set_attribute_entry d k v in
      let (d2, sent) := set_attribute d1 rest in
      (d2, match message with
           | Some m => m :: sent
           | None => sent
           end)
  end.

(* ================================================================== *)
(** ** [set_target_temperature] and [set_swing] *)

Definition set_target_temperature (d : device) (target_temperature mode : Z)
  : device * list message :=
  let message := make_message_unique_set d in
  let message :=
    set_field message "target_temperature" (VNum target_temperature) in
  let message :=
    if truthy (VNum mode) then
      set_field (set_field message "mode" (VNum mode)) "power" (VBool true)
    else message in
  (d, [message]).

Definition set_swing (d : device) (swing_horizontal swing_vertical : bool)
  : device * list message :=
  let message := make_message_set d in
  let message :=
    set_field message "swing_horizontal" (VBool swing_horizontal) in
  let message := set_field message "swing_vertical" (VBool swing_vertical) in
  (d, [message]).

(* ================================================================== *)
(** ** Sessions *)

(** The operations that the accessory layer calls on a device. *)
Inductive operation : Type :=
| OpProcessMessage (msg : response)
| OpBuildQuery
| OpSetAttribute (entries : obj)
| OpSetTargetTemperature (target_temperature mode : Z)
| OpSetSwing (swing_horizontal swing_vertical : bool).

(** One operation: the device after it and the messages it issues (for
    [build_query], the queries it returns to be sent). *)
Definition step (d : device) (o : operation) : device * list message :=
  match o with
  | OpProcessMessage msg => (fst (process_message d msg), [])
  | OpBuildQuery => (d, build_query d)
  | OpSetAttribute entries => set_attribute d entries
  | OpSetTargetTemperature t m => set_target_temperature d t m
  | OpSetSwing h v => set_swing d h v
  end.

(** A session: operations one after the other.  The result is the
    device at the end and the messages issued, each with the operation
    that issued it. *)
Fixpoint run (d : device) (ops : list operation)
  : device * list (operation * message) :=
  match ops with
  | [] => (d, [])
  | o :: rest =>
      let (d1, out1) := step d o in
      let (d2, out2) := run d1 rest in
      (d2, (map (pair o) out1 ++ out2)%list)
  end.

Definition is_set_swing (o : operation) : bool :=
  match o with
  | OpSetSwing _ _ => true
  | _ => false
  end.

(** The classes of the general family that carry the device status or
    ask for it: the status-set command and the three general queries. *)
Definition general_status_class (c : message_class) : bool :=
  match c with
  | MessageGeneralSet | MessageQuery
  | MessageNewProtocolQuery | MessagePowerQuery => true
  | _ => false
  end.

(** The whole general family, as the specification lists it. *)
Definition general_family (c : message_class) : bool :=
  match c with
  | MessageQuery | MessageGeneralSet | MessageNewProtocolQuery
  | MessageNewProtocolSet | MessagePowerQuery => true
  | _ => false
  end.

(* ================================================================== *)
(** ** The platform: adding a device *)

(** [DeviceInfo] of [MideaConstants]. *)
Record DeviceInfo : Type := mkDeviceInfo {
  ip : string;
  port : Z;
  id : Z;
  model : string;
  sn : string;
  name : string;
  type : Z;
  info_version : Z
}.

(** [DeviceType.AIR_CONDITIONER]. *)
Definition AIR_CONDITIONER : Z := 172.

Inductive Endianness : Type := little | big.

(** A [Buffer]. *)
Definition buffer : Type := list Byte.byte.

(** [buf.toString('hex')]: two lower-case hexadecimal digits for each
    byte. *)
Definition hex_digit (n : N) : ascii :=
  match n with
  | 0%N => "0" | 1%N => "1" | 2%N => "2" | 3%N => "3"
  | 4%N => "4" | 5%N => "5" | 6%N => "6" | 7%N => "7"
  | 8%N => "8" | 9%N => "9" | 10%N => "a" | 11%N => "b"
  | 12%N => "c" | 13%N => "d" | 14%N => "e" | _ => "f"
  end%char.

Fixpoint toString_hex (b : buffer) : string :=
  match b with
  | [] => EmptyString
  | x :: r =>
      String (hex_digit (N.div (Byte.to_N x) 16))
             (String (hex_digit (N.modulo (Byte.to_N x) 16))
                     (toString_hex r))
  end.

(** [Buffer.from(s, 'hex')]: one byte for each pair of hexadecimal
    digits, of either case; decoding stops at the first pair that is not
    hexadecimal, and a last odd character is dropped. *)
Definition digit_value (c : ascii) : option N :=
  let n := N_of_ascii c in
  if ((48 <=? n) && (n <=? 57))%N then Some (n - 48)%N
  else if ((97 <=? n) && (n <=? 102))%N then Some (n - 87)%N
  else if ((65 <=? n) && (n <=? 70))%N then Some (n - 55)%N
  else None.

Fixpoint Buffer_from_hex (s : string) : buffer :=
  match s with
  | String a (String b r) =>
      match digit_value a, digit_value b with
      | Some x, Some y =>
          match Byte.of_N (16 * x + y) with
          | Some byte => byte :: Buffer_from_hex r
          | None => []
          end
      | _, _ => []
      end
  | _ => []
  end.

(** [MideaAccessory['context']]; a property that has not been assigned
    is [None]. *)
Record context : Type := mkContext {
  ctx_token : option string;
  ctx_key : option string;
  ctx_id : option string;
  ctx_type : option string
}.

Definition empty_context : context := mkContext None None None None.

(** The accessory classes that [AccessoryFactory] can build. *)
Inductive accessory_class : Type := AirConditionerAccessory.

(** [AccessoryFactory.createAccessory]: the [switch] on the device
    type; no case means no accessory. *)
Definition createAccessory (device_type : Z) : option accessory_class :=
  if device_type =? AIR_CONDITIONER then Some AirConditionerAccessory
  else None.

(** What [addDevice] meets outside the platform class: the cloud, the
    device factory and the device.  An awaited call either resolves
    with a value or throws; [None] stands for a throw. *)
Record environment : Type := mkEnvironment {
  cloud_loggedIn : bool;
  cloud_login : option unit;
  cloud_getToken : Endianness -> option (buffer * buffer);
  device_supported : bool;
  device_connect : Z -> buffer -> buffer -> option bool
}.

(** What [addDevice] does to its collaborators, in order.  The attempt
    number of a connect is the loop counter, 0 on the cached path. *)
Inductive event : Type :=
| EvAcquire
| EvRelease
| EvLogin
| EvGetToken (endianess : Endianness)
| EvSetCredentials (token key : buffer)
| EvConnect (attempt : Z)
| EvCreateAccessory (uuid : string) (built : option accessory_class)
| EvRegister (uuid : string) (ctx : context).

(** How a call ends: the promise resolves, or it rejects. *)
Inductive settled : Type := Resolved | Rejected.

(** The locals of the pairing loop. *)
Record pairing : Type := mkPairing {
  p_i : Z;
  p_connected : bool;
  p_context : context;
  p_events : list event
}.

(** The [while] loop that tries the two byte orders.  [fuel] bounds the
    number of turns; the loop itself stops after two.  The result is
    [None] when a connect throws, and the events up to the throw are
    returned with it. *)
Fixpoint pairing_loop (fuel : nat) (env : environment) (uuid : string)
  (st : pairing) : list event * option pairing :=
  match fuel with
  | O => (p_events st, Some st)
  | S fuel' =>
      if (p_i st <=? 1) && negb (p_connected st) then
        let endianess := if p_i st =? 0 then little else big in
        let requested := (p_events st ++ [EvGetToken endianess])%list in
        match cloud_getToken env endianess with
        | Some (token, key) =>
            let ctx := mkContext (Some (toString_hex token))
                                 (Some (toString_hex key))
                                 (Some uuid) (Some "main") in
            let events :=
              (requested ++ [EvSetCredentials token key;
                             EvConnect (p_i st)])%list in
            match device_connect env (p_i st) token key with
            | Some connected =>
                pairing_loop fuel' env uuid
                  (mkPairing (p_i st + 1) connected ctx events)
            | None => (events, None)
            end
        | None =>
            pairing_loop fuel' env uuid
              (mkPairing (p_i st + 1) (p_connected st) (p_context st)
                         requested)
        end
      else (p_events st, Some st)
  end.

(** [addDevice] for a device whose accessory is, or is not, among the
    cached ones ([existing] is its context).  Logging is left out.  On
    the cached path everything happens inside a [try] whose [catch] only
    logs: a throw of [connect], or of [Buffer.from] on a context
    property that was never assigned, ends the call quietly. *)
Definition addDevice (fuel : nat) (env : environment)
  (device_info : DeviceInfo) (uuid : string) (existing : option context)
  : list event * settled :=
  match existing with
  | Some ctx =>
      if device_supported env then
        match ctx_token ctx, ctx_key ctx with
        | Some token_hex, Some key_hex =>
            let token := Buffer_from_hex token_hex in
            let key := Buffer_from_hex key_hex in
            let events := [EvSetCredentials token key; EvConnect 0] in
            match device_connect env 0 token key with
            | Some _ =>
                ((events
                  ++ [EvCreateAccessory
                        uuid (createAccessory (type device_info))])%list,
                 Resolved)
            | None => (events, Resolved)
            end
        | _, _ => ([], Resolved)
        end
      else ([], Resolved)
  | None =>
      let login :=
        if cloud_loggedIn env then Some [EvAcquire]
        else match cloud_login env with
             | Some _ => Some [EvAcquire; EvLogin]
             | None => None
             end in
      match login with
      | None => ([EvAcquire; EvLogin; EvRelease], Rejected)
      | Some events =>
          let events := (events ++ [EvRelease])%list in
          if device_supported env then
            match pairing_loop fuel env uuid
                    (mkPairing 0 false empty_context events) with
            | (events, Some st) =>
                if p_connected st then
                  ((events ++ [EvCreateAccessory
                                 uuid (createAccessory (type device_info));
                               EvRegister uuid (p_context st)])%list,
                   Resolved)
                else (events, Resolved)
            | (events, None) => (events, Rejected)
            end
          else (events, Resolved)
      end
  end.

(** The byte orders for which a token has been requested, in order. *)
Fixpoint token_requests (events : list event) : list Endianness :=
  match events with
  | [] => []
  | EvGetToken e :: r => e :: token_requests r
  | _ :: r => token_requests r
  end.

Definition is_register (e : event) : bool :=
  match e with
  | EvRegister _ _ => true
  | _ => false
  end.

Definition is_acquire (e : event) : bool :=
  match e with
  | EvAcquire => true
  | _ => false
  end.

Definition is_release (e : event) : bool :=
  match e with
  | EvRelease => true
  | _ => false
  end.

Definition is_cloud_call (e : event) : bool :=
  match e with
  | EvLogin | EvGetToken _ | EvAcquire | EvRelease => true
  | _ => false
  end.

(** The events of the pairing loop. *)
Definition is_pairing_event (e : event) : bool :=
  match e with
  | EvGetToken _ | EvSetCredentials _ _ | EvConnect _ => true
  | _ => false
  end.

(** The first turn of the pairing loop ends the loop: the little-endian
    token is accepted by the device, or the connect throws. *)
Definition little_settles (env : environment) : bool :=
  match cloud_getToken env little with
  | Some (token, key) =>
      match device_connect env 0 token key with
      | Some connected => connected
      | None => true
      end
  | None => false
  end.

(** The login step lets the call go on. *)
Definition login_passes (env : environment) : bool :=
  cloud_loggedIn env
  || match cloud_login env with Some _ => true | None => false end.

(** The events of the login gate. *)
Definition is_gate_event (e : event) : bool :=
  match e with
  | EvAcquire | EvRelease | EvLogin => true
  | _ => false
  end.

(* ================================================================== *)
(** ** Vocabulary of the properties *)

(** The members of the exclusive group that a status-set command of the
    selected family has: all five in the general family, three in the
    sub-protocol. *)
Definition family_modes (subprotocol : bool) : list string :=
  if subprotocol then [ "BOOST_MODE"; "SLEEP_MODE"; "ECO_MODE" ]
  else exclusive_modes.

(** The attributes that [make_message_set] and
    [make_subprotocol_message_set] copy into the command. *)
Definition copied_attributes (subprotocol : bool) : list string :=
  if subprotocol then
    [ "POWER"; "PROMPT_TONE"; "AUX_HEATING"; "MODE"; "TARGET_TEMPERATURE";
      "FAN_SPEED"; "BOOST_MODE"; "DRY"; "ECO_MODE"; "SLEEP_MODE" ]
  else
    [ "POWER"; "PROMPT_TONE"; "MODE"; "TARGET_TEMPERATURE"; "FAN_SPEED";
      "SWING_VERTICAL"; "SWING_HORIZONTAL"; "BOOST_MODE"; "SMART_EYE";
      "DRY"; "ECO_MODE"; "AUX_HEATING"; "SLEEP_MODE"; "FROST_PROTECT";
      "COMFORT_MODE"; "NATURAL_WIND"; "TEMP_FAHRENHEIT" ].

(** The class of the status-set command of the selected family. *)
Definition status_set_class (subprotocol : bool) : message_class :=
  if subprotocol then MessageSubProtocolSet else MessageGeneralSet.

(** The entries that reach the last [else] of the routing chain of
    [set_attribute]: every earlier test of the chain fails. *)
Definition routed_to_generic (d : device) (k : string) : bool :=
  negb (includes sensor_only k)
  && negb (k =? "PROMPT_TONE")%string
  && negb (k =? "SCREEN_DISPAY")%string
  && negb (includes ["INDIRECT_WIND"; "BREEZELESS"] k)
  && negb (k =? "FRESH_AIR_POWER")%string
  && negb ((k =? "FRESH_AIR_MODE")%string && version_known d)
  && negb ((k =? "FRESH_AIR_FAN_SPEED")%string && version_known d).

(** The invariant of the merge loop: whatever the loop has recorded in [new_status] is also what the
    attribute object holds, and it is truthy. *)
Definition recorded_is_stored (st : merge) : Prop :=
  forall k, includes (Object_keys (m_new_status st)) k = true ->
            obj_get (m_attributes st) k = obj_get (m_new_status st) k
            /\ truthy (obj_get (m_new_status st) k) = true.

(** The names that the later blocks of [process_message] assign. *)
Definition assigned_after_merge (k : string) : Prop :=
  k = "FRESH_AIR_MODE" \/ k = "INDIRECT_WIND" \/ k = "SCREEN_DISPLAY".

(** A device that has been told that it is switched on and cooling
    (MODE 2), with indirect wind on. *)
Definition running_device : device :=
  fst (process_message (new_device 3)
         (status_report [("POWER", VBool true); ("MODE", VNum 2);
                         ("INDIRECT_WIND", VBool true)])).

(** A device that has been told that it has the new screen-display
    capability. *)
Definition new_display_device : device :=
  fst (process_message (new_device 3)
         (status_report [("SCREEN_DISPLAY_NEW", VBool true)])).

(** A device that has seen a sub-protocol response. *)
Definition locked_device : device :=
  fst (process_message (new_device 3) (subprotocol_report [])).

Definition is_process_message (o : operation) : bool :=
  match o with
  | OpProcessMessage _ => true
  | _ => false
  end.

(** A processed response that carries the sub-protocol marker. *)
Definition is_marked_response (o : operation) : bool :=
  match o with
  | OpProcessMessage msg => resp_used_subprotocol msg
  | _ => false
  end.

(** The classes of the sub-protocol family. *)
Definition subprotocol_family (c : message_class) : bool :=
  match c with
  | MessageSubProtocolQuery | MessageSubProtocolSet => true
  | _ => false
  end.

(** The classes of the commands, as opposed to the queries. *)
Definition command_class (c : message_class) : bool :=
  match c with
  | MessageGeneralSet | MessageSubProtocolSet
  | MessageNewProtocolSet | MessageSwitchDisplay => true
  | _ => false
  end.

(** Each stage after the loop writes the same value to the attribute
    object and to [new_status], so what is recorded stays what is
    stored. *)
Definition recorded_equals_stored (st : merge) : Prop :=
  forall k, includes (Object_keys (m_new_status st)) k = true ->
            obj_get (m_new_status st) k = obj_get (m_attributes st) k.

(** The learned fresh-air version goes with the stored flags: version 1
    with FRESH_AIR_1 on, version 2 with FRESH_AIR_1 off and FRESH_AIR_2
    on. *)
Definition version_matches_flags (d : device) : Prop :=
  match fresh_air_version d with
  | None => True
  | Some n =>
      (n = 1 /\ truthy (attr d "FRESH_AIR_1") = true)
      \/ (n = 2 /\ truthy (attr d "FRESH_AIR_1") = false
                /\ truthy (attr d "FRESH_AIR_2") = true)
  end.

(* ================================================================== *)
(** * Properties *)

(** ** Reading and writing properties *)

Section Objects.

Variable o : obj.
Variables k k' : string.
Variable v : value.

Lemma obj_get_set_same : obj_get (obj_set o k v) k = v.
Proof.
  induction o as [|[s w] r IH]; simpl.
  - now rewrite String.eqb_refl.
  - destruct (k =? s)%string eqn:E; simpl; rewrite E; auto.
Qed.

Lemma obj_get_set_other :
  k <> k' -> obj_get (obj_set o k v) k' = obj_get o k'.
Proof.
  intros Hne.
  assert (Hf : (k' =? k)%string = false)
    by (apply String.eqb_neq; congruence).
  induction o as [|[s w] r IH]; simpl.
  - now rewrite Hf.
  - destruct (k =? s)%string eqn:E; simpl.
    + apply String.eqb_eq in E; subst s. now rewrite Hf.
    + destruct (k' =? s)%string; auto.
Qed.

Lemma includes_keys_set :
  includes (Object_keys (obj_set o k v)) k'
  = ((k' =? k)%string || includes (Object_keys o) k').
Proof.
  unfold includes, Object_keys.
  induction o as [|[s w] r IH]; simpl.
  - reflexivity.
  - destruct (k =? s)%string eqn:E; simpl.
    + apply String.eqb_eq in E; subst s.
      now destruct (k' =? k)%string.
    + rewrite IH. now destruct (k' =? s)%string, (k' =? k)%string.
Qed.

Lemma obj_get_defined_includes :
  obj_get o k <> VUndef -> includes (Object_keys o) k = true.
Proof.
  unfold includes, Object_keys.
  induction o as [|[s w] r IH]; simpl; intros H.
  - congruence.
  - destruct (k =? s)%string; simpl; auto.
Qed.

End Objects.

Lemma includes_In (l : list string) (k : string) :
  includes l k = true <-> In k l.
Proof.
  unfold includes. rewrite existsb_exists. split.
  - intros [x [Hin Heq]]. apply String.eqb_eq in Heq. now subst.
  - intros Hin. exists k. split; auto. apply String.eqb_refl.
Qed.

(** ** The merge loop *)

Lemma merge_field_recorded (msg : response) (st : merge) (status : string) :
  recorded_is_stored st -> recorded_is_stored (merge_field msg st status).
Proof.
  intros Hst. unfold merge_field.
  destruct (truthy (get_body_attribute msg status)) eqn:Ht; auto.
  intros k; simpl. rewrite includes_keys_set.
  destruct (String.eqb_spec k status) as [->|Hne]; simpl.
  - intros _. now rewrite !obj_get_set_same.
  - intros Hin. rewrite !obj_get_set_other by congruence. now apply Hst.
Qed.

Lemma fold_merge_field_recorded (msg : response) (keys : list string) :
  forall st, recorded_is_stored st ->
             recorded_is_stored (fold_left (merge_field msg) keys st).
Proof.
  induction keys as [|key keys IH]; simpl; intros st Hst; auto.
  apply IH. now apply merge_field_recorded.
Qed.

Lemma merge_fields_recorded (msg : response) (a : obj) :
  recorded_is_stored (merge_fields msg a).
Proof.
  apply fold_merge_field_recorded. intros k; simpl. discriminate.
Qed.

(** A field that the response does not carry, or carries with a falsy
    value, leaves the attribute as it was and is not recorded. *)
Lemma fold_merge_field_falsy (msg : response) (k : string) :
  truthy (get_body_attribute msg k) = false ->
  forall keys st,
    let st' := fold_left (merge_field msg) keys st in
    obj_get (m_attributes st') k = obj_get (m_attributes st) k
    /\ includes (Object_keys (m_new_status st')) k
       = includes (Object_keys (m_new_status st)) k.
Proof.
  intros Hk keys. induction keys as [|key keys IH]; simpl; intros st; auto.
  destruct (IH (merge_field msg st key)) as [IHa IHn].
  rewrite IHa, IHn. unfold merge_field.
  destruct (truthy (get_body_attribute msg key)) eqn:Ht; auto.
  assert (Hne : key <> k) by (intros ->; congruence).
  simpl. rewrite obj_get_set_other by assumption.
  rewrite includes_keys_set.
  destruct (String.eqb_spec k key); [congruence | auto].
Qed.

(** A field of the attribute object that the response carries with a
    truthy value is stored and recorded. *)
Lemma fold_merge_field_truthy (msg : response) (k : string) :
  truthy (get_body_attribute msg k) = true ->
  forall keys st,
    In k keys ->
    let st' := fold_left (merge_field msg) keys st in
    obj_get (m_attributes st') k = get_body_attribute msg k
    /\ obj_get (m_new_status st') k = get_body_attribute msg k.
Proof.
  intros Hk.
  assert (Hkeep : forall keys st,
             obj_get (m_attributes st) k = get_body_attribute msg k ->
             obj_get (m_new_status st) k = get_body_attribute msg k ->
             let st' := fold_left (merge_field msg) keys st in
             obj_get (m_attributes st') k = get_body_attribute msg k
             /\ obj_get (m_new_status st') k = get_body_attribute msg k).
  { induction keys as [|key keys IH]; simpl; intros st Ha Hn; auto.
    apply IH; unfold merge_field;
      destruct (truthy (get_body_attribute msg key)); auto; simpl;
      (destruct (String.eqb_spec key k) as [->|Hne];
       [apply obj_get_set_same | now rewrite obj_get_set_other]). }
  induction keys as [|key keys IH]; simpl; intros st Hin; [contradiction|].
  destruct (String.eqb_spec key k) as [->|Hne].
  - apply Hkeep; unfold merge_field; rewrite Hk; simpl;
      apply obj_get_set_same.
  - apply IH. destruct Hin; [congruence | assumption].
Qed.

(** ** The derived attribute and the corrections *)

(** The scan of the speed table assigns FRESH_AIR_MODE and nothing
    else. *)
Lemma fresh_air_scan_other (k : string) :
  "FRESH_AIR_MODE" <> k ->
  forall entries a, obj_get (fresh_air_scan entries a) k = obj_get a k.
Proof.
  intros Hne entries.
  induction entries as [|[key name] rest IH]; simpl; intros a; auto.
  destruct (js_gt (obj_get a "FRESH_AIR_FAN_SPEED") key); auto.
  rewrite IH. now apply obj_get_set_other.
Qed.

Lemma derive_fresh_air_mode_other (st : merge) (k : string) :
  "FRESH_AIR_MODE" <> k ->
  obj_get (m_attributes (derive_fresh_air_mode st)) k
  = obj_get (m_attributes st) k
  /\ obj_get (m_new_status (derive_fresh_air_mode st)) k
     = obj_get (m_new_status st) k
  /\ includes (Object_keys (m_new_status (derive_fresh_air_mode st))) k
     = includes (Object_keys (m_new_status st)) k.
Proof.
  intros Hne. unfold derive_fresh_air_mode.
  destruct (m_has_fresh_air st); auto.
  cbn [m_attributes m_new_status].
  assert (Hf : (k =? "FRESH_AIR_MODE")%string = false)
    by (apply String.eqb_neq; congruence).
  rewrite includes_keys_set, Hf.
  rewrite (obj_get_set_other (m_new_status st)) by assumption.
  repeat split; auto.
  destruct (truthy (obj_get (m_attributes st) "FRESH_AIR_POWER"));
    [apply fresh_air_scan_other | apply obj_get_set_other]; auto.
Qed.

(** Reads through writes, for property names that are literals. *)
Ltac obj_norm :=
  repeat first [ rewrite obj_get_set_same
               | rewrite obj_get_set_other by discriminate
               | rewrite includes_keys_set ];
  simpl.

(** The corrections leave POWER alone. *)
Lemma corrections_keep_power (st : merge) :
  obj_get (m_attributes (correct_screen_display (correct_indirect_wind st)))
          "POWER"
  = obj_get (m_attributes st) "POWER".
Proof.
  unfold correct_screen_display, correct_indirect_wind.
  repeat match goal with
         | |- context [if ?c then _ else _] => destruct c; simpl
         end;
    repeat (rewrite obj_get_set_other by discriminate); reflexivity.
Qed.

(** With POWER off, both corrections apply. *)
Lemma corrections_power_off (st : merge) :
  truthy (obj_get (m_attributes st) "POWER") = false ->
  let st' := correct_screen_display (correct_indirect_wind st) in
  obj_get (m_attributes st') "INDIRECT_WIND" = VBool false
  /\ obj_get (m_attributes st') "SCREEN_DISPLAY" = VBool false
  /\ includes (Object_keys (m_new_status st')) "INDIRECT_WIND" = true
  /\ obj_get (m_new_status st') "INDIRECT_WIND" = VBool false
  /\ includes (Object_keys (m_new_status st')) "SCREEN_DISPLAY" = true
  /\ obj_get (m_new_status st') "SCREEN_DISPLAY" = VBool false.
Proof.
  intros Hp. unfold correct_screen_display, correct_indirect_wind.
  rewrite Hp. simpl. rewrite obj_get_set_other by discriminate.
  rewrite Hp. simpl. obj_norm. auto 10.
Qed.

(** With SWING_VERTICAL recorded and on, INDIRECT_WIND is forced off. *)
Lemma corrections_swing_vertical (st : merge) :
  includes (Object_keys (m_new_status st)) "SWING_VERTICAL" = true ->
  truthy (obj_get (m_attributes st) "SWING_VERTICAL") = true ->
  let st' := correct_screen_display (correct_indirect_wind st) in
  obj_get (m_attributes st') "INDIRECT_WIND" = VBool false
  /\ includes (Object_keys (m_new_status st')) "INDIRECT_WIND" = true
  /\ obj_get (m_new_status st') "INDIRECT_WIND" = VBool false.
Proof.
  intros Hin Hsv. unfold correct_screen_display, correct_indirect_wind.
  rewrite Hin, Hsv. rewrite orb_true_r. simpl.
  rewrite obj_get_set_other by discriminate.
  destruct (truthy (obj_get (m_attributes st) "POWER")); simpl;
    obj_norm; auto.
Qed.

(** What the corrections record about SWING_VERTICAL is what was
    recorded before them. *)
Lemma corrections_keep_swing_vertical (st : merge) :
  obj_get (m_new_status (correct_screen_display (correct_indirect_wind st)))
          "SWING_VERTICAL"
  = obj_get (m_new_status st) "SWING_VERTICAL".
Proof.
  unfold correct_screen_display, correct_indirect_wind.
  repeat match goal with
         | |- context [if ?c then _ else _] => destruct c; simpl
         end;
    repeat (rewrite obj_get_set_other by discriminate); reflexivity.
Qed.

Lemma attr_learn_fresh_air_version (d : device) (k : string) :
  attr (learn_fresh_air_version d) k = attr d k.
Proof.
  unfold learn_fresh_air_version.
  destruct (truthy (attr d "FRESH_AIR_1")); auto.
  destruct (truthy (attr d "FRESH_AIR_2")); auto.
Qed.

(** The attributes after [process_message], stage by stage. *)
Lemma attr_process_message (d : device) (msg : response) (k : string) :
  attr (fst (process_message d msg)) k
  = obj_get (m_attributes
               (correct_screen_display
                  (correct_indirect_wind
                     (derive_fresh_air_mode
                        (merge_fields msg
                           (attributes (note_subprotocol d msg))))))) k.
Proof.
  unfold process_message. simpl. now rewrite attr_learn_fresh_air_version.
Qed.

(** C5.  After every [process_message] call, if the stored POWER
    attribute is false, then the stored INDIRECT_WIND and SCREEN_DISPLAY
    attributes are false and both names are in the returned change-set
    with the value false, whatever they were before the call; and if the
    change-set of the call contains SWING_VERTICAL = true, then
    INDIRECT_WIND is forced to false and is in the change-set. *)
Theorem process_message_forces_corrections (d : device) (msg : response) :
  let d' := fst (process_message d msg) in
  let change_set := snd (process_message d msg) in
  (truthy (attr d' "POWER") = false ->
   attr d' "INDIRECT_WIND" = VBool false
   /\ attr d' "SCREEN_DISPLAY" = VBool false
   /\ includes (Object_keys change_set) "INDIRECT_WIND" = true
   /\ obj_get change_set "INDIRECT_WIND" = VBool false
   /\ includes (Object_keys change_set) "SCREEN_DISPLAY" = true
   /\ obj_get change_set "SCREEN_DISPLAY" = VBool false)
  /\ (obj_get change_set "SWING_VERTICAL" = VBool true ->
      attr d' "INDIRECT_WIND" = VBool false
      /\ includes (Object_keys change_set) "INDIRECT_WIND" = true
      /\ obj_get change_set "INDIRECT_WIND" = VBool false).
Proof.
  cbv zeta. rewrite !attr_process_message.
  unfold process_message; cbn [snd].
  set (st0 := merge_fields msg (attributes (note_subprotocol d msg))).
  set (st1 := derive_fresh_air_mode st0).
  split.
  - rewrite corrections_keep_power. intros Hp.
    now apply corrections_power_off.
  - rewrite corrections_keep_swing_vertical. intros Hsv.
    destruct (derive_fresh_air_mode_other st0 "SWING_VERTICAL")
      as [Ha [Hn Hi]]; [discriminate|].
    fold st1 in Ha, Hn, Hi.
    assert (Hin : includes (Object_keys (m_new_status st1)) "SWING_VERTICAL"
                  = true)
      by (apply obj_get_defined_includes; rewrite Hsv; discriminate).
    apply corrections_swing_vertical; auto.
    rewrite Hi in Hin.
    destruct (merge_fields_recorded
                msg (attributes (note_subprotocol d msg))
                "SWING_VERTICAL" Hin) as [Heq Ht].
    fold st0 in Heq, Ht. now rewrite Ha, Heq.
Qed.

Lemma process_message_forces_corrections_witness :
  (truthy (attr (fst (process_message (new_device 3) (status_report [])))
                "POWER") = false
   /\ obj_get (snd (process_message (new_device 3) (status_report [])))
              "SCREEN_DISPLAY" = VBool false)
  /\ (obj_get (snd (process_message running_device
                      (status_report [("SWING_VERTICAL", VBool true)])))
              "SWING_VERTICAL" = VBool true
      /\ attr (fst (process_message running_device
                      (status_report [("SWING_VERTICAL", VBool true)])))
              "INDIRECT_WIND" = VBool false).
Proof.
  split; (split; [reflexivity|]).
  - apply (proj1 (process_message_forces_corrections
                    (new_device 3) (status_report []))).
    reflexivity.
  - apply (proj2 (process_message_forces_corrections
                    running_device
                    (status_report [("SWING_VERTICAL", VBool true)]))).
    reflexivity.
Defined.

(* ================================================================== *)
(** ** The command builder *)

(** An entry that names a sensor reading builds nothing and changes
    nothing. *)
Lemma set_attribute_entry_sensor (d : device) (k : string) (v : value) :
  In k sensor_only -> set_attribute_entry d k v = (d, None).
Proof.
  intros Hin. apply includes_In in Hin.
  unfold set_attribute_entry. now rewrite Hin.
Qed.

(** C6.  A sensor-only name in a [set_attribute] request is a silent
    no-op: wherever the entry stands in the request, the call sends the
    same messages and leaves the same device as the request without the
    entry does, so no command is built for it, nothing is raised and no
    stored attribute changes. *)
Theorem set_attribute_sensor_only_is_noop
  (d : device) (before after : obj) (k : string) (v : value) :
  In k sensor_only ->
  set_attribute d (before ++ (k, v) :: after)%list
  = set_attribute d (before ++ after)%list.
Proof.
  intros Hin. revert d.
  induction before as [|[k0 v0] before IH]; intros d; simpl.
  - rewrite set_attribute_entry_sensor by assumption.
    now destruct (set_attribute d after).
  - destruct (set_attribute_entry d k0 v0) as [d1 m]. now rewrite IH.
Qed.

Lemma set_attribute_sensor_only_is_noop_witness :
  In "INDOOR_TEMPERATURE" sensor_only
  /\ set_attribute running_device [("INDOOR_TEMPERATURE", VNum 21)]
     = (running_device, []).
Proof.
  assert (Hin : In "INDOOR_TEMPERATURE" sensor_only) by (simpl; auto).
  split; [exact Hin|].
  exact (set_attribute_sensor_only_is_noop
           running_device [] [] "INDOOR_TEMPERATURE" (VNum 21) Hin).
Defined.

(** The entries that reach the end of the routing chain build the
    command of [generic_set] and leave the device alone. *)
Lemma set_attribute_entry_generic (d : device) (k : string) (v : value) :
  routed_to_generic d k = true ->
  set_attribute_entry d k v = (d, Some (generic_set d k v)).
Proof.
  unfold routed_to_generic, set_attribute_entry. intros H.
  repeat (apply andb_prop in H; destruct H as [H ?]).
  repeat match goal with
         | Hn : negb ?c = true |- _ =>
             apply negb_true_iff in Hn; try rewrite Hn; clear Hn
         end.
  reflexivity.
Qed.

(** The members of the exclusive group reach the end of the chain. *)
Lemma exclusive_modes_routed (d : device) (k : string) :
  In k exclusive_modes -> routed_to_generic d k = true.
Proof.
  simpl. intros H.
  repeat (destruct H as [<-|H]; [reflexivity|]). contradiction.
Qed.

(** What the two status-set builders copy. *)
Lemma make_message_unique_set_copies (d : device) (name : string) :
  In name (copied_attributes (used_subprotocol d)) ->
  field (make_message_unique_set d) (toLowerCase name) = attr d name.
Proof.
  unfold make_message_unique_set, copied_attributes.
  destruct (used_subprotocol d); simpl; intros H;
    repeat (destruct H as [<-|H]; [reflexivity|]); contradiction.
Qed.

Lemma make_message_unique_set_class (d : device) :
  msg_class (make_message_unique_set d)
  = status_set_class (used_subprotocol d).
Proof.
  unfold make_message_unique_set. now destruct (used_subprotocol d).
Qed.

(** C4.  A request that sets one member of the exclusive group to true
    sends one status-set command of the selected family; the command
    carries the requested flag as true and every other member of the
    group that the family has as false. *)
Theorem set_attribute_exclusive_mode (d : device) (k : string) :
  In k exclusive_modes ->
  exists m,
    set_attribute d [(k, VBool true)] = (d, [m])
    /\ msg_class m = status_set_class (used_subprotocol d)
    /\ field m (toLowerCase k) = VBool true
    /\ forall k', In k' (family_modes (used_subprotocol d)) -> k' <> k ->
                  field m (toLowerCase k') = VBool false.
Proof.
  intros Hin. exists (generic_set d k (VBool true)). split.
  - simpl. now rewrite set_attribute_entry_generic
      by now apply exclusive_modes_routed.
  - unfold generic_set, make_message_unique_set, family_modes.
    simpl in Hin.
    destruct (used_subprotocol d);
      repeat (destruct Hin as [<-|Hin];
              [ split; [reflexivity|]; split; [reflexivity|];
                intros k' Hk' Hne; simpl in Hk';
                repeat (destruct Hk' as [<-|Hk'];
                        [first [reflexivity | congruence]|]);
                contradiction
              | ]);
      contradiction.
Qed.

Lemma set_attribute_exclusive_mode_witness :
  In "ECO_MODE" exclusive_modes
  /\ exists m,
      set_attribute locked_device [("ECO_MODE", VBool true)]
      = (locked_device, [m])
      /\ msg_class m = MessageSubProtocolSet
      /\ field m "eco_mode" = VBool true
      /\ forall k', In k' ["BOOST_MODE"; "SLEEP_MODE"; "ECO_MODE"] ->
                    k' <> "ECO_MODE" ->
                    field m (toLowerCase k') = VBool false.
Proof.
  assert (Hin : In "ECO_MODE" exclusive_modes) by (simpl; auto 10).
  split; [exact Hin|].
  exact (set_attribute_exclusive_mode locked_device "ECO_MODE" Hin).
Defined.

(** The attributes that the accessory sets through the generic path
    reach it on every device. *)
Lemma status_attributes_routed (d : device) (k : string) :
  In k [ "POWER"; "MODE"; "TARGET_TEMPERATURE"; "FAN_SPEED";
         "SWING_VERTICAL"; "SWING_HORIZONTAL"; "SMART_EYE"; "DRY";
         "AUX_HEATING"; "NATURAL_WIND"; "TEMP_FAHRENHEIT" ] ->
  routed_to_generic d k = true /\ includes exclusive_modes k = false.
Proof.
  simpl. intros H.
  repeat (destruct H as [<-|H]; [split; reflexivity|]). contradiction.
Qed.

(** C10.  A request for an attribute that reaches the generic
    status-set path and is not in the exclusive group sends the command
    that [make_message_unique_set] builds from the stored values: the
    requested value is not written into it, every attribute field of the
    command is the stored attribute, and the device, the attribute named
    by the request included, is as it was. *)
Theorem set_attribute_generic_ignores_value
  (d : device) (k : string) (v : value) :
  routed_to_generic d k = true ->
  includes exclusive_modes k = false ->
  set_attribute d [(k, v)] = (d, [make_message_unique_set d])
  /\ (forall name, In name (copied_attributes (used_subprotocol d)) ->
                   field (make_message_unique_set d) (toLowerCase name)
                   = attr d name)
  /\ attr (fst (set_attribute d [(k, v)])) k = attr d k.
Proof.
  intros Hroute Hgroup.
  assert (Hcall : set_attribute d [(k, v)] = (d, [make_message_unique_set d])).
  { simpl. rewrite set_attribute_entry_generic by assumption.
    unfold generic_set. now rewrite Hgroup. }
  repeat split.
  - exact Hcall.
  - apply make_message_unique_set_copies.
  - now rewrite Hcall.
Qed.

Lemma set_attribute_generic_ignores_value_witness :
  (routed_to_generic running_device "MODE" = true
   /\ includes exclusive_modes "MODE" = false)
  /\ set_attribute running_device [("MODE", VNum 4)]
     = (running_device, [make_message_unique_set running_device])
  /\ field (make_message_unique_set running_device) "mode" = VNum 2.
Proof.
  split; [split; reflexivity|].
  destruct (set_attribute_generic_ignores_value
              running_device "MODE" (VNum 4) eq_refl eq_refl)
    as [Hcall [Hcopy _]].
  split; [exact Hcall|].
  apply (Hcopy "MODE"). simpl. auto.
Defined.

(* ================================================================== *)
(** ** The sub-protocol lock *)

Lemma generic_set_class (d : device) (k : string) (v : value) :
  msg_class (generic_set d k v) = status_set_class (used_subprotocol d).
Proof.
  unfold generic_set, make_message_unique_set.
  destruct (used_subprotocol d); simpl;
    repeat match goal with
           | |- context [if ?c then _ else _] => destruct c; simpl
           end;
    reflexivity.
Qed.

(** One entry of a request never touches the lock, and the command it
    builds is a new-protocol set, a switch-display, or the status-set of
    the selected family. *)
Lemma set_attribute_entry_lock (d : device) (k : string) (v : value) :
  used_subprotocol (fst (set_attribute_entry d k v)) = used_subprotocol d
  /\ forall m, snd (set_attribute_entry d k v) = Some m ->
               msg_class m = MessageNewProtocolSet
               \/ msg_class m = MessageSwitchDisplay
               \/ msg_class m = status_set_class (used_subprotocol d).
Proof.
  unfold set_attribute_entry.
  repeat match goal with
         | |- context [if ?c then _ else _] => destruct c
         end;
    (split; [reflexivity|]); cbn [snd]; intros m Hm;
    try discriminate; injection Hm as <-; auto using generic_set_class.
Qed.

Lemma set_attribute_lock (entries : obj) :
  forall d,
    used_subprotocol (fst (set_attribute d entries)) = used_subprotocol d
    /\ forall m, In m (snd (set_attribute d entries)) ->
                 msg_class m = MessageNewProtocolSet
                 \/ msg_class m = MessageSwitchDisplay
                 \/ msg_class m = status_set_class (used_subprotocol d).
Proof.
  induction entries as [|[k v] rest IH]; intros d; simpl.
  - split; [reflexivity | contradiction].
  - destruct (set_attribute_entry_lock d k v) as [Hflag Hmsg].
    destruct (set_attribute_entry d k v) as [d1 message]. simpl in *.
    destruct (IH d1) as [Hflag' Hmsg'].
    destruct (set_attribute d1 rest) as [d2 sent]. simpl in *.
    rewrite Hflag in *. split; [assumption|].
    destruct message as [m0|]; simpl; intros m Hin; auto.
    destruct Hin as [<-|Hin]; auto.
Qed.

(** [process_message] sets the lock on a marked response and never
    clears it. *)
Lemma process_message_lock (d : device) (msg : response) :
  used_subprotocol (fst (process_message d msg))
  = resp_used_subprotocol msg || used_subprotocol d.
Proof.
  unfold process_message, learn_fresh_air_version, note_subprotocol.
  cbn [fst].
  repeat match goal with
         | |- context [if ?c then _ else _] => destruct c
         end; reflexivity.
Qed.

(** No operation clears the lock. *)
Lemma step_keeps_lock (d : device) (o : operation) :
  used_subprotocol d = true -> used_subprotocol (fst (step d o)) = true.
Proof.
  intros Hlock. destruct o as [msg| |entries|t m|h v]; cbn [step fst]; auto.
  - rewrite process_message_lock, Hlock. apply orb_true_r.
  - now rewrite (proj1 (set_attribute_lock entries d)).
Qed.

(** Under the lock, only [set_swing] issues a status message of the
    general family. *)
Lemma step_locked_classes (d : device) (o : operation) (m : message) :
  used_subprotocol d = true ->
  In m (snd (step d o)) ->
  general_status_class (msg_class m) = true ->
  is_set_swing o = true.
Proof.
  intros Hlock Hin Hclass.
  destruct o as [msg| |entries|t mode|h v]; cbn [step snd] in Hin;
    [| | | |reflexivity].
  - destruct Hin.
  - unfold build_query in Hin. rewrite Hlock in Hin.
    repeat (destruct Hin as [<-|Hin]; [discriminate|]). destruct Hin.
  - destruct (proj2 (set_attribute_lock entries d) m Hin) as [H|[H|H]];
      rewrite H in Hclass; try rewrite Hlock in Hclass; discriminate.
  - unfold set_target_temperature in Hin. cbn [snd] in Hin.
    destruct Hin as [<-|[]].
    unfold make_message_unique_set in Hclass. rewrite Hlock in Hclass.
    destruct (truthy (VNum mode)); discriminate.
Qed.

Lemma run_locked (ops : list operation) :
  forall d,
    used_subprotocol d = true ->
    used_subprotocol (fst (run d ops)) = true
    /\ forall o m, In (o, m) (snd (run d ops)) ->
                   general_status_class (msg_class m) = true ->
                   is_set_swing o = true.
Proof.
  induction ops as [|o rest IH]; intros d Hlock; simpl.
  - split; [assumption | contradiction].
  - pose proof (step_keeps_lock d o Hlock) as Hnext.
    pose proof (step_locked_classes d o) as Hout.
    destruct (step d o) as [d1 out1]. simpl in *.
    destruct (IH d1 Hnext) as [Hend Hrest].
    destruct (run d1 rest) as [d2 out2]. simpl in *.
    split; [assumption|].
    intros o' m Hin Hclass. apply in_app_or in Hin as [Hin|Hin].
    + apply in_map_iff in Hin as [m' [Heq Hin]].
      injection Heq as <- <-. now apply (Hout m').
    + now apply (Hrest o' m).
Qed.

(** C9, as the code has it.  Once a processed response carries the
    sub-protocol marker, [used_subprotocol] stays true across every
    later operation, [build_query] returns the three sub-protocol
    queries with the codes 0x10, 0x11 and 0x30, and the status-set
    command and the queries of the general family are issued by no
    operation but [set_swing]. *)
Theorem subprotocol_lock_is_sticky
  (d : device) (msg : response) (ops : list operation) :
  resp_used_subprotocol msg = true ->
  let d1 := fst (process_message d msg) in
  let d2 := fst (run d1 ops) in
  used_subprotocol d2 = true
  /\ build_query d2
     = [ new_message MessageSubProtocolQuery [version d2; 16];
         new_message MessageSubProtocolQuery [version d2; 17];
         new_message MessageSubProtocolQuery [version d2; 48] ]
  /\ forall o m, In (o, m) (snd (run d1 ops)) ->
                 general_status_class (msg_class m) = true ->
                 is_set_swing o = true.
Proof.
  intros Hmark d1 d2.
  assert (Hlock : used_subprotocol d1 = true)
    by (unfold d1; now rewrite process_message_lock, Hmark).
  destruct (run_locked ops d1 Hlock) as [Hend Hout].
  fold d2 in Hend. repeat split; auto.
  unfold build_query. now rewrite Hend.
Qed.

Lemma subprotocol_lock_is_sticky_witness :
  resp_used_subprotocol (subprotocol_report []) = true
  /\ used_subprotocol
       (fst (run locked_device
               [ OpSetAttribute [("POWER", VBool true)];
                 OpProcessMessage (status_report [("POWER", VBool true)]);
                 OpSetTargetTemperature 22 2;
                 OpBuildQuery ])) = true.
Proof.
  split; [reflexivity|].
  exact (proj1 (subprotocol_lock_is_sticky
                  (new_device 3) (subprotocol_report [])
                  [ OpSetAttribute [("POWER", VBool true)];
                    OpProcessMessage (status_report [("POWER", VBool true)]);
                    OpSetTargetTemperature 22 2;
                    OpBuildQuery ]
                  eq_refl)).
Defined.

(** C9, as the specification states it, fails: on a locked device
    [set_swing] issues the status-set command of the general family, and
    [set_attribute] issues a new-protocol set command for
    INDIRECT_WIND. *)
Lemma general_family_issued_after_lock :
  resp_used_subprotocol (subprotocol_report []) = true
  /\ used_subprotocol locked_device = true
  /\ map (fun issued => msg_class (snd issued))
         (snd (run locked_device
                 [ OpSetSwing true false;
                   OpSetAttribute [("INDIRECT_WIND", VBool true)] ]))
     = [ MessageGeneralSet; MessageNewProtocolSet ]
  /\ general_family MessageGeneralSet = true
  /\ general_family MessageNewProtocolSet = true.
Proof.
  repeat split.
Qed.

(* ================================================================== *)
(** ** What the merge does with a carried field *)

Lemma corrections_other (st : merge) (k : string) :
  "INDIRECT_WIND" <> k -> "SCREEN_DISPLAY" <> k ->
  let st' := correct_screen_display (correct_indirect_wind st) in
  obj_get (m_attributes st') k = obj_get (m_attributes st) k
  /\ obj_get (m_new_status st') k = obj_get (m_new_status st) k
  /\ includes (Object_keys (m_new_status st')) k
     = includes (Object_keys (m_new_status st)) k.
Proof.
  intros Hiw Hsd.
  assert (Hf1 : (k =? "INDIRECT_WIND")%string = false)
    by (apply String.eqb_neq; congruence).
  assert (Hf2 : (k =? "SCREEN_DISPLAY")%string = false)
    by (apply String.eqb_neq; congruence).
  unfold correct_screen_display, correct_indirect_wind.
  repeat match goal with
         | |- context [if ?c then _ else _] => destruct c; simpl
         end;
    rewrite ?includes_keys_set, ?Hf1, ?Hf2;
    repeat (rewrite obj_get_set_other by assumption); auto.
Qed.

Lemma attributes_note_subprotocol (d : device) (msg : response) :
  attributes (note_subprotocol d msg) = attributes d.
Proof.
  unfold note_subprotocol. now destruct (resp_used_subprotocol msg).
Qed.

(** A field of the attribute object that the response carries with a
    truthy value is stored and is in the change-set. *)
Lemma process_message_stores_truthy
  (d : device) (msg : response) (k : string) :
  In k (Object_keys (attributes d)) ->
  truthy (get_body_attribute msg k) = true ->
  ~ assigned_after_merge k ->
  attr (fst (process_message d msg)) k = get_body_attribute msg k
  /\ obj_get (snd (process_message d msg)) k = get_body_attribute msg k.
Proof.
  intros Hin Ht Hk. unfold assigned_after_merge in Hk.
  rewrite attr_process_message. unfold process_message; cbn [snd].
  rewrite attributes_note_subprotocol.
  destruct (corrections_other
              (derive_fresh_air_mode (merge_fields msg (attributes d))) k)
    as [Ha [Hn _]]; [intros <-; tauto | intros <-; tauto |].
  destruct (derive_fresh_air_mode_other (merge_fields msg (attributes d)) k)
    as [Ha' [Hn' _]]; [intros <-; tauto|].
  rewrite Ha, Hn, Ha', Hn'.
  now apply fold_merge_field_truthy.
Qed.

(** A field that the response does not carry, and equally a field that
    it carries with a falsy value ([false], [0], the empty string),
    leaves the stored attribute as it was and is not in the
    change-set. *)
Lemma process_message_skips_falsy
  (d : device) (msg : response) (k : string) :
  truthy (get_body_attribute msg k) = false ->
  ~ assigned_after_merge k ->
  attr (fst (process_message d msg)) k = attr d k
  /\ includes (Object_keys (snd (process_message d msg))) k = false.
Proof.
  intros Ht Hk. unfold assigned_after_merge in Hk.
  rewrite attr_process_message. unfold process_message; cbn [snd].
  rewrite attributes_note_subprotocol.
  destruct (corrections_other
              (derive_fresh_air_mode (merge_fields msg (attributes d))) k)
    as [Ha [_ Hi]]; [intros <-; tauto | intros <-; tauto |].
  destruct (derive_fresh_air_mode_other (merge_fields msg (attributes d)) k)
    as [Ha' [_ Hi']]; [intros <-; tauto|].
  rewrite Ha, Hi, Ha', Hi'.
  exact (fold_merge_field_falsy msg k Ht (Object_keys (attributes d))
                                (mkMerge (attributes d) [] false)).
Qed.

(** C1 at a failing input.  The device is on and cooling; the response
    carries POWER = false and MODE = 0.  Both stored attributes stay as
    they were and the change-set is empty: the presence test of the
    merge loop is a truthiness test, so a carried [false] or [0] is
    taken for an absent field. *)
Theorem process_message_drops_carried_false :
  attr running_device "POWER" = VBool true
  /\ attr running_device "MODE" = VNum 2
  /\ get_body_attribute
       (status_report [("POWER", VBool false); ("MODE", VNum 0)]) "POWER"
     = VBool false
  /\ process_message running_device
       (status_report [("POWER", VBool false); ("MODE", VNum 0)])
     = (running_device, []).
Proof.
  repeat split.
Qed.

(* ================================================================== *)
(** ** The derived fresh-air mode *)

(** The break test of the scan looks at the stored speed only. *)
Lemma fresh_air_scan_breaks_at_once
  (a : obj) (k : Z) (name : string) (rest : int_table) :
  js_gt (obj_get a "FRESH_AIR_FAN_SPEED") k = true ->
  fresh_air_scan ((k, name) :: rest) a = a.
Proof.
  intros H. simpl. now rewrite H.
Qed.

(** The entries of the reverse table come out in ascending order, the
    same as those of the forward table. *)
Lemma Object_entries_reverse_table :
  Object_entries FRESH_AIR_FAN_SPEEDS_REVERSE = FRESH_AIR_FAN_SPEEDS
  /\ Object_entries FRESH_AIR_FAN_SPEEDS = FRESH_AIR_FAN_SPEEDS.
Proof.
  split; reflexivity.
Qed.

(** With a speed above zero the scan stops at the entry for 0 and
    assigns nothing. *)
Lemma fresh_air_scan_positive_speed (a : obj) (speed : Z) :
  obj_get a "FRESH_AIR_FAN_SPEED" = VNum speed -> 0 < speed ->
  fresh_air_scan (Object_entries FRESH_AIR_FAN_SPEEDS_REVERSE) a = a.
Proof.
  intros Hs Hpos. rewrite (proj1 Object_entries_reverse_table).
  apply fresh_air_scan_breaks_at_once.
  rewrite Hs. unfold js_gt; simpl. now apply Z.ltb_lt.
Qed.

(** Taken in the order in which the literal is written, the same scan
    gives the tier of the smallest boundary that is not below the
    speed: "Low" at 40, "Medium" at 60, and "Medium" at 45. *)
Lemma fresh_air_scan_in_written_order :
  let mode speed :=
    obj_get (fresh_air_scan FRESH_AIR_FAN_SPEEDS_REVERSE
               [("FRESH_AIR_FAN_SPEED", VNum speed)]) "FRESH_AIR_MODE" in
  mode 40 = VStr "Low" /\ mode 60 = VStr "Medium" /\ mode 45 = VStr "Medium".
Proof.
  repeat split.
Qed.

(** C2 at failing inputs.  A new device receives FRESH_AIR_POWER = true
    with FRESH_AIR_FAN_SPEED = 40, 60 or 45: the change-set holds
    FRESH_AIR_MODE with the value [undefined], not "Low" or "Medium".
    A device with fresh air on receives FRESH_AIR_POWER = false: the
    change-set has no FRESH_AIR_MODE at all and the stored power stays
    on. *)
Theorem fresh_air_mode_is_not_derived :
  let report speed :=
    status_report [("FRESH_AIR_POWER", VBool true);
                   ("FRESH_AIR_FAN_SPEED", VNum speed)] in
  let aired := fst (process_message (new_device 3) (report 40)) in
  snd (process_message (new_device 3) (report 40))
  = [ ("FRESH_AIR_POWER", VBool true); ("FRESH_AIR_FAN_SPEED", VNum 40);
      ("FRESH_AIR_MODE", VUndef);
      ("INDIRECT_WIND", VBool false); ("SCREEN_DISPLAY", VBool false) ]
  /\ obj_get (snd (process_message (new_device 3) (report 60)))
             "FRESH_AIR_MODE" = VUndef
  /\ obj_get (snd (process_message (new_device 3) (report 45)))
             "FRESH_AIR_MODE" = VUndef
  /\ attr aired "FRESH_AIR_POWER" = VBool true
  /\ includes
       (Object_keys
          (snd (process_message aired
                  (status_report [("FRESH_AIR_POWER", VBool false)]))))
       "FRESH_AIR_MODE" = false
  /\ attr (fst (process_message aired
                  (status_report [("FRESH_AIR_POWER", VBool false)])))
          "FRESH_AIR_POWER" = VBool true.
Proof.
  repeat split.
Qed.

(* ================================================================== *)
(** ** Requests that the routing chain sends to the generic path *)

(** [set_target_temperature] with a mode other than 0 writes the mode
    and forces the power on. *)
Lemma set_target_temperature_forces_power
  (d : device) (target_temperature mode : Z) :
  mode <> 0 ->
  exists m,
    set_target_temperature d target_temperature mode = (d, [m])
    /\ msg_class m = status_set_class (used_subprotocol d)
    /\ field m "target_temperature" = VNum target_temperature
    /\ field m "mode" = VNum mode
    /\ field m "power" = VBool true.
Proof.
  intros Hmode. apply Z.eqb_neq in Hmode.
  unfold set_target_temperature, make_message_unique_set. simpl.
  rewrite Hmode. simpl.
  eexists; split; [reflexivity|].
  destruct (used_subprotocol d); repeat split.
Qed.

(** C3 at a failing input.  A new device (POWER false, MODE 0) is asked
    for MODE = 2.  The one command sent is the status-set built from the
    stored values: it carries mode 0 and power false.  The assignment of
    the requested value and the forcing of the power stand inside the
    test for the exclusive group, of which MODE is no member. *)
Theorem set_attribute_mode_sends_stored_mode :
  set_attribute (new_device 3) [("MODE", VNum 2)]
  = (new_device 3, [make_message_set (new_device 3)])
  /\ field (make_message_set (new_device 3)) "mode" = VNum 0
  /\ field (make_message_set (new_device 3)) "power" = VBool false.
Proof.
  repeat split.
Qed.

(* ================================================================== *)
(** ** Fresh air *)

Lemma fresh_air_version_set_attribute_entry
  (d : device) (k : string) (v : value) :
  fresh_air_version (fst (set_attribute_entry d k v)) = fresh_air_version d.
Proof.
  unfold set_attribute_entry.
  repeat match goal with
         | |- context [if ?c then _ else _] => destruct c
         end; reflexivity.
Qed.

Lemma fresh_air_version_set_attribute (entries : obj) :
  forall d,
    fresh_air_version (fst (set_attribute d entries)) = fresh_air_version d.
Proof.
  induction entries as [|[k v] rest IH]; intros d; simpl; auto.
  pose proof (fresh_air_version_set_attribute_entry d k v) as H1.
  destruct (set_attribute_entry d k v) as [d1 message]. simpl in H1.
  pose proof (IH d1) as H2.
  destruct (set_attribute d1 rest) as [d2 sent]. simpl in *. congruence.
Qed.

(** A status update sets the version to 1 when FRESH_AIR_1 is on, to 2
    when only FRESH_AIR_2 is on, and leaves it alone otherwise. *)
Lemma fresh_air_version_process_message (d : device) (msg : response) :
  let d' := fst (process_message d msg) in
  fresh_air_version d'
  = if truthy (attr d' "FRESH_AIR_1") then Some 1
    else if truthy (attr d' "FRESH_AIR_2") then Some 2
         else fresh_air_version d.
Proof.
  cbv zeta. rewrite !attr_process_message.
  unfold process_message, learn_fresh_air_version, attr. cbn [fst attributes].
  unfold with_attributes at 1 3. cbn [attributes].
  repeat match goal with
         | |- context [if truthy ?c then _ else _] => destruct (truthy c)
         end; try reflexivity.
  unfold note_subprotocol. now destruct (resp_used_subprotocol msg).
Qed.

(** Once known, the version stays known through every operation. *)
Lemma version_known_step (d : device) (o : operation) :
  version_known d = true -> version_known (fst (step d o)) = true.
Proof.
  unfold version_known.
  destruct o as [msg| |entries|t m|h v]; cbn [step fst]; auto.
  - rewrite fresh_air_version_process_message.
    repeat match goal with
           | |- context [if ?c then _ else _] => destruct c
           end; auto.
  - now rewrite fresh_air_version_set_attribute.
Qed.

Lemma version_known_run (ops : list operation) :
  forall d, version_known d = true -> version_known (fst (run d ops)) = true.
Proof.
  induction ops as [|o rest IH]; intros d Hd; simpl; auto.
  pose proof (version_known_step d o Hd) as H1.
  destruct (step d o) as [d1 out1]. simpl in H1.
  pose proof (IH d1 H1) as H2.
  now destruct (run d1 rest) as [d2 out2].
Qed.

(** With the version unknown, a request for FRESH_AIR_POWER builds
    nothing. *)
Lemma fresh_air_power_needs_version (d : device) (v : value) :
  version_known d = false ->
  set_attribute d [("FRESH_AIR_POWER", v)] = (d, []).
Proof.
  intros H. simpl. unfold set_attribute_entry. simpl. now rewrite H.
Qed.

(** With the version unknown, a request for FRESH_AIR_MODE or
    FRESH_AIR_FAN_SPEED reaches the generic path. *)
Lemma fresh_air_mode_and_speed_fall_through (d : device) (k : string) :
  version_known d = false ->
  k = "FRESH_AIR_MODE" \/ k = "FRESH_AIR_FAN_SPEED" ->
  routed_to_generic d k = true.
Proof.
  intros H [-> | ->]; unfold routed_to_generic; rewrite H; reflexivity.
Qed.

(** C7 at a failing input.  On a new device the fresh-air version is
    unknown.  A request for FRESH_AIR_FAN_SPEED = 40, and likewise one
    for FRESH_AIR_MODE = "Low", sends a status-set command of the
    general family; only the request for FRESH_AIR_POWER sends
    nothing. *)
Theorem fresh_air_request_before_version_sends :
  version_known (new_device 3) = false
  /\ set_attribute (new_device 3) [("FRESH_AIR_FAN_SPEED", VNum 40)]
     = (new_device 3, [make_message_set (new_device 3)])
  /\ set_attribute (new_device 3) [("FRESH_AIR_MODE", VStr "Low")]
     = (new_device 3, [make_message_set (new_device 3)])
  /\ msg_class (make_message_set (new_device 3)) = MessageGeneralSet
  /\ set_attribute (new_device 3) [("FRESH_AIR_POWER", VBool true)]
     = (new_device 3, []).
Proof.
  repeat split.
Qed.

(* ================================================================== *)
(** ** The display toggle *)

(** The branch of the display toggle is taken for the name that the
    source compares with, which is spelled without its L. *)
Lemma set_attribute_display_branch (d : device) (v : value) :
  set_attribute d [("SCREEN_DISPAY", v)]
  = (d, [ if truthy (attr d "SCREEN_DISPLAY_NEW") then
            set_field
              (set_field (new_message MessageNewProtocolSet [version d])
                         "screen_display" v)
              "prompt_tone" (attr d "PROMPT_TONE")
          else new_message MessageSwitchDisplay [version d] ]).
Proof.
  simpl. unfold set_attribute_entry. simpl.
  now destruct (truthy (attr d "SCREEN_DISPLAY_NEW")).
Qed.

(** A request for SCREEN_DISPLAY reaches the generic path on every
    device. *)
Lemma screen_display_routed (d : device) :
  routed_to_generic d "SCREEN_DISPLAY" = true.
Proof.
  reflexivity.
Qed.

(** C8 at failing inputs.  A request for SCREEN_DISPLAY = true sends the
    status-set command of the general family, which has no display
    field, on a device without the new display capability and on one
    with it; neither the switch-display command nor the new-protocol
    command is built. *)
Theorem set_attribute_screen_display_is_generic :
  truthy (attr (new_device 3) "SCREEN_DISPLAY_NEW") = false
  /\ set_attribute (new_device 3) [("SCREEN_DISPLAY", VBool true)]
     = (new_device 3, [make_message_set (new_device 3)])
  /\ truthy (attr new_display_device "SCREEN_DISPLAY_NEW") = true
  /\ set_attribute new_display_device [("SCREEN_DISPLAY", VBool true)]
     = (new_display_device, [make_message_set new_display_device])
  /\ msg_class (make_message_set new_display_device) = MessageGeneralSet
  /\ field (make_message_set new_display_device) "screen_display" = VUndef.
Proof.
  repeat split.
Qed.

(* ================================================================== *)
(** * Further properties of the device class *)

(** ** The merge loop, name by name *)

Lemma In_keys_obj_set (o : obj) (k k' : string) (v : value) :
  In k' (Object_keys (obj_set o k v)) <-> k' = k \/ In k' (Object_keys o).
Proof.
  rewrite <- !includes_In, includes_keys_set, orb_true_iff.
  now rewrite String.eqb_eq.
Qed.

(** Which names the loop has recorded and which properties the
    attribute object has after it. *)
Lemma fold_merge_field_includes (msg : response) (k : string) :
  forall keys st,
    let st' := fold_left (merge_field msg) keys st in
    includes (Object_keys (m_new_status st')) k
    = includes (Object_keys (m_new_status st)) k
      || (includes keys k && truthy (get_body_attribute msg k))
    /\ includes (Object_keys (m_attributes st')) k
       = includes (Object_keys (m_attributes st)) k
         || (includes keys k && truthy (get_body_attribute msg k)).
Proof.
  induction keys as [|key keys IH]; intros st; cbn [fold_left].
  - cbv zeta. simpl. now rewrite !orb_false_r.
  - destruct (IH (merge_field msg st key)) as [IHn IHa].
    cbv zeta in *. rewrite IHn, IHa. clear IHn IHa.
    change (includes (key :: keys) k)
      with ((k =? key)%string || includes keys k).
    unfold merge_field.
    destruct (truthy (get_body_attribute msg key)) eqn:Ht;
      cbn [m_new_status m_attributes]; rewrite ?includes_keys_set;
      destruct (String.eqb_spec k key) as [->|Hne]; rewrite ?Ht;
      cbn [orb andb]; rewrite ?orb_true_r, ?andb_false_r; auto.
Qed.

(** A name that the loop does not visit keeps its value. *)
Lemma fold_merge_field_not_visited (msg : response) (k : string) :
  forall keys st,
    ~ In k keys ->
    let st' := fold_left (merge_field msg) keys st in
    obj_get (m_attributes st') k = obj_get (m_attributes st) k
    /\ obj_get (m_new_status st') k = obj_get (m_new_status st) k.
Proof.
  induction keys as [|key keys IH]; intros st Hk; cbn [fold_left]; auto.
  destruct (IH (merge_field msg st key)) as [IHa IHn];
    [intros H; apply Hk; now right|].
  cbv zeta in *. rewrite IHa, IHn.
  assert (Hne : key <> k) by (intros ->; apply Hk; now left).
  unfold merge_field.
  destruct (truthy (get_body_attribute msg key)); auto.
  cbn [m_attributes m_new_status].
  now rewrite !obj_get_set_other by assumption.
Qed.

(** A name that the response carries with a falsy value is not
    recorded either. *)
Lemma fold_merge_field_falsy_value (msg : response) (k : string) :
  truthy (get_body_attribute msg k) = false ->
  forall keys st,
    obj_get (m_new_status (fold_left (merge_field msg) keys st)) k
    = obj_get (m_new_status st) k.
Proof.
  intros Hk keys. induction keys as [|key keys IH]; intros st; simpl; auto.
  rewrite IH. unfold merge_field.
  destruct (truthy (get_body_attribute msg key)) eqn:Ht; auto.
  assert (Hne : key <> k) by (intros ->; congruence).
  simpl. now rewrite obj_get_set_other.
Qed.

(** The loop from its start, for one name. *)
Lemma merge_fields_name (msg : response) (a : obj) (k : string) :
  let st := merge_fields msg a in
  let carried :=
    includes (Object_keys a) k && truthy (get_body_attribute msg k) in
  includes (Object_keys (m_new_status st)) k = carried
  /\ obj_get (m_attributes st) k
     = (if carried then get_body_attribute msg k else obj_get a k)
  /\ obj_get (m_new_status st) k
     = (if carried then get_body_attribute msg k else VUndef)
  /\ includes (Object_keys (m_attributes st)) k = includes (Object_keys a) k.
Proof.
  cbv zeta. unfold merge_fields.
  destruct (fold_merge_field_includes msg k (Object_keys a)
              (mkMerge a [] false)) as [Hn Ha].
  cbv zeta in Hn, Ha. cbn [m_new_status m_attributes] in Hn, Ha.
  rewrite Hn, Ha. clear Hn Ha. cbn [Object_keys map includes existsb orb].
  fold (Object_keys a). fold (includes (Object_keys a) k).
  split; [reflexivity|].
  destruct (includes (Object_keys a) k) eqn:Hin; cbn [andb orb].
  - destruct (truthy (get_body_attribute msg k)) eqn:Ht.
    + apply includes_In in Hin.
      destruct (fold_merge_field_truthy msg k Ht (Object_keys a)
                  (mkMerge a [] false) Hin) as [H1 H2].
      cbv zeta in H1, H2. now rewrite H1, H2.
    + destruct (fold_merge_field_falsy msg k Ht (Object_keys a)
                  (mkMerge a [] false)) as [H1 _].
      cbv zeta in H1. rewrite H1.
      now rewrite (fold_merge_field_falsy_value msg k Ht).
  - assert (Hnot : ~ In k (Object_keys a))
      by (rewrite <- includes_In; congruence).
    destruct (fold_merge_field_not_visited msg k (Object_keys a)
                (mkMerge a [] false) Hnot) as [H1 H2].
    cbv zeta in H1, H2. now rewrite H1, H2.
Qed.

(** ** The stages after the loop, name by name *)

(** The state of the method after its loop and after its fresh-air
    block. *)
Lemma attributes_process_message (d : device) (msg : response) :
  attributes (fst (process_message d msg))
  = m_attributes
      (correct_screen_display
         (correct_indirect_wind
            (derive_fresh_air_mode (merge_fields msg (attributes d)))))
  /\ snd (process_message d msg)
     = m_new_status
         (correct_screen_display
            (correct_indirect_wind
               (derive_fresh_air_mode (merge_fields msg (attributes d))))).
Proof.
  unfold process_message. cbn [fst snd].
  rewrite attributes_note_subprotocol. split; [|reflexivity].
  unfold learn_fresh_air_version.
  repeat match goal with
         | |- context [if ?c then _ else _] => destruct c
         end; reflexivity.
Qed.

Lemma fresh_air_scan_keys (k : string) :
  forall entries a,
    (In k (Object_keys a) -> In k (Object_keys (fresh_air_scan entries a)))
    /\ (In k (Object_keys (fresh_air_scan entries a)) ->
        In k (Object_keys a) \/ k = "FRESH_AIR_MODE").
Proof.
  induction entries as [|[key name] rest IH]; intros a; cbn [fresh_air_scan].
  - auto.
  - destruct (js_gt (obj_get a "FRESH_AIR_FAN_SPEED") key); [auto|].
    destruct (IH (obj_set a "FRESH_AIR_MODE" (VStr name))) as [H1 H2].
    split.
    + intros H. apply H1. apply In_keys_obj_set. now right.
    + intros H. apply H2 in H as [H|H]; [|now right].
      apply In_keys_obj_set in H as [H|H]; auto.
Qed.

(** No stage after the loop removes a property, and the only properties
    that the stages add are the three that they assign. *)
Lemma stages_keys (st : merge) (k : string) :
  let st' := correct_screen_display
               (correct_indirect_wind (derive_fresh_air_mode st)) in
  (In k (Object_keys (m_attributes st)) ->
   In k (Object_keys (m_attributes st')))
  /\ (In k (Object_keys (m_attributes st')) ->
      In k (Object_keys (m_attributes st)) \/ assigned_after_merge k).
Proof.
  unfold assigned_after_merge, correct_screen_display, correct_indirect_wind,
    derive_fresh_air_mode.
  cbv zeta.
  repeat match goal with
         | |- context [if ?c then _ else _] => destruct c; cbn [m_attributes]
         end;
    rewrite ?In_keys_obj_set;
    try (destruct (fresh_air_scan_keys k
                     (Object_entries FRESH_AIR_FAN_SPEEDS_REVERSE)
                     (m_attributes st)) as [Hs1 Hs2]);
    split; intros H; try tauto;
    repeat match goal with
           | Hk : _ \/ _ |- _ => destruct Hk as [Hk|Hk]
           end; auto; try tauto;
    try (apply Hs2 in H; tauto).
Qed.

Lemma recorded_equals_stored_assign (st : merge) (k : string) (v : value)
  (fresh : bool) :
  recorded_equals_stored st ->
  recorded_equals_stored
    (mkMerge (obj_set (m_attributes st) k v) (obj_set (m_new_status st) k v)
             fresh).
Proof.
  intros Hst k'. cbn [m_attributes m_new_status]. rewrite includes_keys_set.
  destruct (String.eqb_spec k' k) as [->|Hne]; cbn [orb].
  - now rewrite !obj_get_set_same.
  - intros Hin. rewrite !obj_get_set_other by congruence. now apply Hst.
Qed.

Lemma recorded_equals_stored_stages (st : merge) :
  recorded_equals_stored st ->
  recorded_equals_stored
    (correct_screen_display
       (correct_indirect_wind (derive_fresh_air_mode st))).
Proof.
  intros Hst.
  assert (Hd : recorded_equals_stored (derive_fresh_air_mode st)).
  { unfold derive_fresh_air_mode. destruct (m_has_fresh_air st); auto.
    intros k. cbn [m_attributes m_new_status]. rewrite includes_keys_set.
    destruct (String.eqb_spec k "FRESH_AIR_MODE") as [->|Hne]; cbn [orb].
    - now rewrite obj_get_set_same.
    - intros Hin. rewrite obj_get_set_other by congruence.
      rewrite (Hst k Hin).
      destruct (truthy (obj_get (m_attributes st) "FRESH_AIR_POWER"));
        [rewrite fresh_air_scan_other | rewrite obj_get_set_other];
        congruence. }
  unfold correct_screen_display, correct_indirect_wind.
  repeat match goal with
         | |- context [if ?c then _ else _] => destruct c
         end;
    auto using recorded_equals_stored_assign.
Qed.

(** ** What a status update stores and reports *)

(** For every name other than the three that the later blocks
    assign, a status update stores the carried value exactly when the
    name is a property of the attribute object and the carried value is
    truthy, and puts the name in the change-set in exactly that case;
    otherwise (the name is unknown to the device, the field is absent or
    its value is falsy) the stored value is as before and the name is
    not in the change-set. *)
Lemma process_message_named_field
  (d : device) (msg : response) (k : string) :
  ~ assigned_after_merge k ->
  let carried :=
    includes (Object_keys (attributes d)) k
    && truthy (get_body_attribute msg k) in
  attr (fst (process_message d msg)) k
  = (if carried then get_body_attribute msg k else attr d k)
  /\ includes (Object_keys (snd (process_message d msg))) k = carried
  /\ obj_get (snd (process_message d msg)) k
     = (if carried then get_body_attribute msg k else VUndef).
Proof.
  intros Hk. unfold assigned_after_merge in Hk. cbv zeta.
  unfold attr. destruct (attributes_process_message d msg) as [-> ->].
  destruct (corrections_other
              (derive_fresh_air_mode (merge_fields msg (attributes d))) k)
    as [Ha [Hn Hi]]; [intros <-; tauto | intros <-; tauto |].
  destruct (derive_fresh_air_mode_other (merge_fields msg (attributes d)) k)
    as [Ha' [Hn' Hi']]; [intros <-; tauto|].
  cbv zeta in Ha, Hn, Hi. rewrite Ha, Hn, Hi, Ha', Hn', Hi'.
  destruct (merge_fields_name msg (attributes d) k) as [H1 [H2 [H3 _]]].
  cbv zeta in H1, H2, H3. now rewrite H1, H2, H3.
Qed.

(** X1.  For every name other than the three that the later blocks
    assign, a status update stores the carried value exactly when the
    name is a property of the attribute object and the carried value is
    truthy, and puts the name in the change-set in exactly that case;
    otherwise (the name is unknown to the device, the field is absent or
    its value is falsy) the stored value is as before and the name is
    not in the change-set. *)
Theorem process_message_merges_named_fields
  (d : device) (msg : response) (k : string) :
  ~ assigned_after_merge k ->
  let carried :=
    includes (Object_keys (attributes d)) k
    && truthy (get_body_attribute msg k) in
  attr (fst (process_message d msg)) k
  = (if carried then get_body_attribute msg k else attr d k)
  /\ includes (Object_keys (snd (process_message d msg))) k = carried
  /\ obj_get (snd (process_message d msg)) k
     = (if carried then get_body_attribute msg k else VUndef).
Proof.
  exact (process_message_named_field d msg k).
Qed.

Lemma process_message_merges_named_fields_witness :
  ~ assigned_after_merge "FAN_SPEED"
  /\ attr (fst (process_message running_device
                  (status_report [("FAN_SPEED", VNum 60);
                                  ("INDOOR_TEMPERATURE", VNum 21)])))
          "FAN_SPEED" = VNum 60.
Proof.
  assert (Hk : ~ assigned_after_merge "FAN_SPEED")
    by (intros [H|[H|H]]; discriminate).
  split; [exact Hk|].
  exact (proj1 (process_message_merges_named_fields
                  running_device
                  (status_report [("FAN_SPEED", VNum 60);
                                  ("INDOOR_TEMPERATURE", VNum 21)])
                  "FAN_SPEED" Hk)).
Defined.

(** A status update removes no property of the attribute object,
    and the only properties it can add are FRESH_AIR_MODE, INDIRECT_WIND
    and SCREEN_DISPLAY: a field of the response whose name the device
    does not have never becomes an attribute. *)
Lemma process_message_keys
  (d : device) (msg : response) (k : string) :
  (In k (Object_keys (attributes d)) ->
   In k (Object_keys (attributes (fst (process_message d msg)))))
  /\ (In k (Object_keys (attributes (fst (process_message d msg)))) ->
      In k (Object_keys (attributes d)) \/ assigned_after_merge k).
Proof.
  destruct (attributes_process_message d msg) as [-> _].
  destruct (stages_keys (merge_fields msg (attributes d)) k) as [H1 H2].
  cbv zeta in H1, H2.
  destruct (merge_fields_name msg (attributes d) k) as [_ [_ [_ Hkeys]]].
  cbv zeta in Hkeys.
  assert (Hiff : In k (Object_keys (m_attributes
                                      (merge_fields msg (attributes d))))
                 <-> In k (Object_keys (attributes d)))
    by (rewrite <- !includes_In; now rewrite Hkeys).
  split; intros H.
  - apply H1. now apply Hiff.
  - apply H2 in H as [H|H]; [left; now apply Hiff | now right].
Qed.

(** X3.  The change-set of a status update agrees with the device: every
    name in it is reported with the value that the attribute has after
    the call, the derived and the corrected attributes included. *)
Theorem change_set_agrees_with_store
  (d : device) (msg : response) (k : string) :
  includes (Object_keys (snd (process_message d msg))) k = true ->
  obj_get (snd (process_message d msg)) k
  = attr (fst (process_message d msg)) k.
Proof.
  unfold attr. destruct (attributes_process_message d msg) as [-> ->].
  apply recorded_equals_stored_stages.
  intros k' Hin.
  now destruct (merge_fields_recorded msg (attributes d) k' Hin) as [-> _].
Qed.

Lemma change_set_agrees_with_store_witness :
  includes
    (Object_keys
       (snd (process_message (new_device 3)
               (status_report [("FRESH_AIR_POWER", VBool true)]))))
    "FRESH_AIR_MODE" = true
  /\ attr (fst (process_message (new_device 3)
                  (status_report [("FRESH_AIR_POWER", VBool true)])))
          "FRESH_AIR_MODE" = VStr "Full".
Proof.
  split; [reflexivity|].
  rewrite <- (change_set_agrees_with_store
                (new_device 3)
                (status_report [("FRESH_AIR_POWER", VBool true)])
                "FRESH_AIR_MODE" eq_refl).
  reflexivity.
Defined.

(** X5.  The corrections apply only when they are due: if POWER is on
    after the merge and the update has not recorded SWING_VERTICAL, then
    INDIRECT_WIND and SCREEN_DISPLAY are handled like any other
    attribute, stored and reported only if the response carries them
    with a truthy value. *)
Theorem corrections_only_when_due
  (d : device) (msg : response) (k : string) :
  truthy (attr (fst (process_message d msg)) "POWER") = true ->
  includes (Object_keys (snd (process_message d msg))) "SWING_VERTICAL"
  = false ->
  k = "INDIRECT_WIND" \/ k = "SCREEN_DISPLAY" ->
  let carried :=
    includes (Object_keys (attributes d)) k
    && truthy (get_body_attribute msg k) in
  attr (fst (process_message d msg)) k
  = (if carried then get_body_attribute msg k else attr d k)
  /\ includes (Object_keys (snd (process_message d msg))) k = carried.
Proof.
  unfold attr. destruct (attributes_process_message d msg) as [-> ->].
  set (st1 := derive_fresh_air_mode (merge_fields msg (attributes d))).
  rewrite corrections_keep_power.
  destruct (corrections_other st1 "SWING_VERTICAL") as [_ [_ Hsv]];
    [discriminate | discriminate |].
  cbv zeta in Hsv. rewrite Hsv. clear Hsv.
  intros Hp Hsv Hk.
  assert (Hid : correct_screen_display (correct_indirect_wind st1) = st1).
  { unfold correct_screen_display, correct_indirect_wind.
    rewrite Hp, Hsv. cbn [negb orb andb]. now rewrite Hp. }
  rewrite Hid. cbv zeta.
  destruct (derive_fresh_air_mode_other (merge_fields msg (attributes d)) k)
    as [Ha [_ Hi]]; [destruct Hk as [-> | ->]; discriminate|].
  fold st1 in Ha, Hi. rewrite Ha, Hi.
  destruct (merge_fields_name msg (attributes d) k) as [H1 [H2 _]].
  cbv zeta in H1, H2. now rewrite H1, H2.
Qed.

Lemma corrections_only_when_due_witness :
  attr (fst (process_message running_device
               (status_report [("FAN_SPEED", VNum 60)])))
       "INDIRECT_WIND" = VBool true
  /\ includes
       (Object_keys
          (snd (process_message running_device
                  (status_report [("FAN_SPEED", VNum 60)]))))
       "INDIRECT_WIND" = false.
Proof.
  exact (corrections_only_when_due
           running_device (status_report [("FAN_SPEED", VNum 60)])
           "INDIRECT_WIND" eq_refl eq_refl (or_introl eq_refl)).
Defined.

(* ================================================================== *)
(** ** What a request changes on the device *)

(** One entry changes the device only if it names PROMPT_TONE. *)
Lemma set_attribute_entry_device (d : device) (k : string) (v : value) :
  fst (set_attribute_entry d k v)
  = if (k =? "PROMPT_TONE")%string
    then with_attributes d (obj_set (attributes d) "PROMPT_TONE" v)
    else d.
Proof.
  unfold set_attribute_entry.
  destruct (String.eqb_spec k "PROMPT_TONE") as [->|Hne]; [reflexivity|].
  repeat match goal with
         | |- context [if ?c then _ else _] => destruct c
         end; reflexivity.
Qed.

(** The device after a whole request: the attribute object has been
    assigned PROMPT_TONE some number of times and nothing else has
    happened. *)
Lemma set_attribute_device (entries : obj) :
  forall d,
    let d' := fst (set_attribute d entries) in
    version d' = version d
    /\ fresh_air_version d' = fresh_air_version d
    /\ used_subprotocol d' = used_subprotocol d
    /\ bb_sn8_flag d' = bb_sn8_flag d
    /\ bb_timer d' = bb_timer d
    /\ (forall k, k <> "PROMPT_TONE" -> attr d' k = attr d k)
    /\ (forall k, In k (Object_keys (attributes d)) ->
                  In k (Object_keys (attributes d')))
    /\ (forall k, In k (Object_keys (attributes d')) ->
                  In k (Object_keys (attributes d)) \/ k = "PROMPT_TONE").
Proof.
  induction entries as [|[k v] rest IH]; intros d; cbn [set_attribute].
  - cbv zeta. cbn [fst]. repeat split; auto.
  - pose proof (set_attribute_entry_device d k v) as Hd1.
    destruct (set_attribute_entry d k v) as [d1 message]. cbn [fst] in Hd1.
    specialize (IH d1). cbv zeta in IH.
    destruct (set_attribute d1 rest) as [d2 sent]. cbn [fst] in *.
    destruct IH as [I1 [I2 [I3 [I4 [I5 [I6 [I7 I8]]]]]]].
    assert (Hstep : version d1 = version d
                    /\ fresh_air_version d1 = fresh_air_version d
                    /\ used_subprotocol d1 = used_subprotocol d
                    /\ bb_sn8_flag d1 = bb_sn8_flag d
                    /\ bb_timer d1 = bb_timer d
                    /\ (forall k, k <> "PROMPT_TONE" -> attr d1 k = attr d k)
                    /\ (forall k, In k (Object_keys (attributes d)) ->
                                  In k (Object_keys (attributes d1)))
                    /\ (forall k, In k (Object_keys (attributes d1)) ->
                                  In k (Object_keys (attributes d))
                                  \/ k = "PROMPT_TONE")).
    { subst d1. destruct (k =? "PROMPT_TONE")%string.
      - repeat split; auto; unfold attr; cbn [with_attributes attributes].
        + intros k' Hk'. apply obj_get_set_other. congruence.
        + intros k' H. apply In_keys_obj_set. now right.
        + intros k' H. apply In_keys_obj_set in H as [H|H]; auto.
      - repeat split; auto. }
    destruct Hstep as [S1 [S2 [S3 [S4 [S5 [S6 [S7 S8]]]]]]].
    repeat split; try congruence.
    + intros k' Hk'. rewrite I6 by assumption. now apply S6.
    + intros k' Hk'. apply I7. now apply S7.
    + intros k' Hk'. apply I8 in Hk' as [Hk'|Hk']; auto.
Qed.

(* ================================================================== *)
(** ** Sessions, attribute by attribute *)

Lemma obj_get_not_key (o : obj) (k : string) :
  ~ In k (Object_keys o) -> obj_get o k = VUndef.
Proof.
  induction o as [|[s w] r IH]; simpl; intros H; auto.
  destruct (String.eqb_spec k s) as [->|Hne]; [exfalso; auto|].
  apply IH. intros Hin. apply H. now right.
Qed.

Lemma includes_In_false (l : list string) (k : string) :
  includes l k = false -> ~ In k l.
Proof.
  intros H Hin. apply includes_In in Hin. congruence.
Qed.

(** A status update never turns a truthy attribute falsy, the three
    assigned names apart. *)
Lemma process_message_truthy_stays
  (d : device) (msg : response) (k : string) :
  ~ assigned_after_merge k ->
  truthy (attr d k) = true ->
  truthy (attr (fst (process_message d msg)) k) = true.
Proof.
  intros Hk Ht.
  destruct (truthy (get_body_attribute msg k)) eqn:Hb.
  - assert (Hin : In k (Object_keys (attributes d))).
    { apply includes_In, obj_get_defined_includes.
      intros Hu. unfold attr in Ht. now rewrite Hu in Ht. }
    destruct (process_message_stores_truthy d msg k Hin Hb Hk) as [-> _].
    exact Hb.
  - now destruct (process_message_skips_falsy d msg k Hb Hk) as [-> _].
Qed.

(** One operation, for one attribute name. *)
Lemma step_attribute (d : device) (o : operation) (k : string) :
  (In k (Object_keys (attributes d)) ->
   In k (Object_keys (attributes (fst (step d o)))))
  /\ (In k (Object_keys (attributes (fst (step d o)))) ->
      In k (Object_keys (attributes d))
      \/ assigned_after_merge k \/ k = "PROMPT_TONE")
  /\ (~ assigned_after_merge k -> k <> "PROMPT_TONE" ->
      truthy (attr d k) = true ->
      truthy (attr (fst (step d o)) k) = true).
Proof.
  assert (Hsame : forall d0 : device,
             d0 = d ->
             (In k (Object_keys (attributes d)) ->
              In k (Object_keys (attributes d0)))
             /\ (In k (Object_keys (attributes d0)) ->
                 In k (Object_keys (attributes d))
                 \/ assigned_after_merge k \/ k = "PROMPT_TONE")
             /\ (~ assigned_after_merge k -> k <> "PROMPT_TONE" ->
                 truthy (attr d k) = true -> truthy (attr d0 k) = true)).
  { intros d0 ->. split; [|split]; intros; try left; assumption. }
  destruct o as [msg| |entries|t m|h v]; cbn [step];
    [ | now apply Hsame | | now apply Hsame | now apply Hsame ].
  - destruct (process_message_keys d msg k) as [H1 H2].
    split; [exact H1|]. split.
    + intros H. destruct (H2 H) as [H'|H']; [left | right; left]; exact H'.
    + intros Hk _. apply process_message_truthy_stays. exact Hk.
  - destruct (set_attribute_device entries d)
      as [_ [_ [_ [_ [_ [Ha [Hk1 Hk2]]]]]]].
    split; [apply Hk1|]. split.
    + intros H. destruct (Hk2 k H) as [H'|H']; [left | right; right];
        exact H'.
    + intros _ Hne Ht. rewrite (Ha k Hne). exact Ht.
Qed.

Lemma run_attribute (ops : list operation) (k : string) :
  forall d,
    (In k (Object_keys (attributes d)) ->
     In k (Object_keys (attributes (fst (run d ops)))))
    /\ (In k (Object_keys (attributes (fst (run d ops)))) ->
        In k (Object_keys (attributes d))
        \/ assigned_after_merge k \/ k = "PROMPT_TONE")
    /\ (~ assigned_after_merge k -> k <> "PROMPT_TONE" ->
        truthy (attr d k) = true ->
        truthy (attr (fst (run d ops)) k) = true).
Proof.
  induction ops as [|o rest IH]; intros d; cbn [run].
  - cbn [fst]. repeat split; auto.
  - pose proof (step_attribute d o k) as [S1 [S2 S3]].
    destruct (step d o) as [d1 out1]. cbn [fst] in *.
    destruct (IH d1) as [I1 [I2 I3]].
    destruct (run d1 rest) as [d2 out2]. cbn [fst] in *.
    repeat split; auto.
    intros H. apply I2 in H as [H|H]; auto.
Qed.

(** X2.  A name that is not a property of the attribute object, and is
    neither PROMPT_TONE nor one of the three names that a status update
    assigns, never becomes an attribute: whatever responses carry it and
    whatever requests name it, it reads as [undefined] at the end of
    every session.  On a new device this holds for the optional sensor
    readings that the constructor leaves out. *)
Theorem unknown_names_are_never_stored
  (d : device) (ops : list operation) (k : string) :
  ~ In k (Object_keys (attributes d)) ->
  ~ assigned_after_merge k ->
  k <> "PROMPT_TONE" ->
  ~ In k (Object_keys (attributes (fst (run d ops))))
  /\ attr (fst (run d ops)) k = VUndef.
Proof.
  intros Hnew Hk Hpt.
  assert (Hnot : ~ In k (Object_keys (attributes (fst (run d ops))))).
  { intros H. apply (run_attribute ops k d) in H. tauto. }
  split; [exact Hnot | now apply obj_get_not_key].
Qed.

Lemma unknown_names_are_never_stored_witness :
  attr (fst (run (new_device 3)
               [ OpProcessMessage
                   (status_report [("POWER", VBool true);
                                   ("INDOOR_TEMPERATURE", VNum 21)]);
                 OpSetAttribute [("INDOOR_TEMPERATURE", VNum 22)];
                 OpProcessMessage
                   (status_report [("INDOOR_TEMPERATURE", VNum 23)]) ]))
       "INDOOR_TEMPERATURE" = VUndef.
Proof.
  apply (unknown_names_are_never_stored (new_device 3)).
  - apply includes_In_false. reflexivity.
  - intros [H|[H|H]]; discriminate.
  - discriminate.
Defined.

(** X4.  Once an attribute other than PROMPT_TONE and the three
    assigned names holds a truthy value, it holds a truthy value at the
    end of every session: no response and no request turns it off. *)
Theorem truthy_attributes_stay_truthy
  (d : device) (ops : list operation) (k : string) :
  ~ assigned_after_merge k ->
  k <> "PROMPT_TONE" ->
  truthy (attr d k) = true ->
  truthy (attr (fst (run d ops)) k) = true.
Proof.
  intros Hk Hpt Ht. now apply (run_attribute ops k d).
Qed.

Lemma truthy_attributes_stay_truthy_witness :
  truthy (attr running_device "POWER") = true
  /\ truthy
       (attr (fst (run running_device
                     [ OpProcessMessage
                         (status_report [("POWER", VBool false)]);
                       OpSetAttribute [("POWER", VBool false)] ]))
             "POWER") = true.
Proof.
  split; [reflexivity|].
  apply (truthy_attributes_stay_truthy running_device).
  - intros [H|[H|H]]; discriminate.
  - discriminate.
  - reflexivity.
Defined.

(* ================================================================== *)
(** ** Requests *)

(** X6.  Only a status update changes what the device stores: through
    any sequence of requests, temperature settings, swing settings and
    query builds, every attribute other than PROMPT_TONE keeps its
    value, and so do the protocol family, the fresh-air version and the
    two captured sub-protocol flags.  No command updates the attribute
    that it sets. *)
Theorem commands_change_only_prompt_tone (ops : list operation) :
  forall d,
    forallb (fun o => negb (is_process_message o)) ops = true ->
    let d' := fst (run d ops) in
    (forall k, k <> "PROMPT_TONE" -> attr d' k = attr d k)
    /\ used_subprotocol d' = used_subprotocol d
    /\ fresh_air_version d' = fresh_air_version d
    /\ bb_sn8_flag d' = bb_sn8_flag d
    /\ bb_timer d' = bb_timer d.
Proof.
  induction ops as [|o rest IH]; intros d Hops; cbn [run].
  - cbv zeta. cbn [fst]. auto.
  - cbn [forallb] in Hops. apply andb_prop in Hops as [Ho Hrest].
    assert (Hstep : (forall k, k <> "PROMPT_TONE" ->
                               attr (fst (step d o)) k = attr d k)
                    /\ used_subprotocol (fst (step d o)) = used_subprotocol d
                    /\ fresh_air_version (fst (step d o))
                       = fresh_air_version d
                    /\ bb_sn8_flag (fst (step d o)) = bb_sn8_flag d
                    /\ bb_timer (fst (step d o)) = bb_timer d).
    { destruct o as [msg| |entries|t m|h v]; cbn [step fst];
        try discriminate; auto.
      destruct (set_attribute_device entries d)
        as [_ [H2 [H3 [H4 [H5 [H6 _]]]]]]. auto. }
    destruct (step d o) as [d1 out1]. cbn [fst] in Hstep.
    specialize (IH d1 Hrest). cbv zeta in IH.
    destruct (run d1 rest) as [d2 out2]. cbn [fst] in *.
    destruct Hstep as [S1 [S2 [S3 [S4 S5]]]].
    destruct IH as [I1 [I2 [I3 [I4 I5]]]].
    repeat split; try congruence.
    intros k Hk. rewrite I1 by assumption. now apply S1.
Qed.

Lemma commands_change_only_prompt_tone_witness :
  attr (fst (run (new_device 3)
               [ OpSetAttribute [("POWER", VBool true); ("MODE", VNum 2)];
                 OpSetTargetTemperature 22 2;
                 OpSetSwing true true ]))
       "POWER" = VBool false.
Proof.
  assert (Hne : "POWER" <> "PROMPT_TONE") by discriminate.
  exact (proj1 (commands_change_only_prompt_tone
                  [ OpSetAttribute [("POWER", VBool true); ("MODE", VNum 2)];
                    OpSetTargetTemperature 22 2;
                    OpSetSwing true true ]
                  (new_device 3) eq_refl) "POWER" Hne).
Defined.

(** The status-set command of the generic path carries the stored
    tone. *)
Lemma generic_set_prompt_tone (d : device) (k : string) (v : value) :
  field (generic_set d k v) "prompt_tone" = attr d "PROMPT_TONE".
Proof.
  unfold generic_set.
  destruct (includes exclusive_modes k) eqn:Hin.
  - apply includes_In in Hin. simpl in Hin.
    unfold make_message_unique_set.
    destruct (used_subprotocol d);
      repeat (destruct Hin as [<-|Hin]; [reflexivity|]); contradiction.
  - unfold make_message_unique_set. now destruct (used_subprotocol d).
Qed.

(** X7.  PROMPT_TONE sends nothing by itself; it sets the stored tone,
    and a command built later in the same request for an attribute of
    the generic path, for INDIRECT_WIND or for BREEZELESS carries it,
    while a command built earlier in the request carries the tone that
    was stored before. *)
Theorem prompt_tone_is_folded_into_later_commands
  (d : device) (tone : value) (k : string) (v : value) :
  routed_to_generic d k = true \/ In k ["INDIRECT_WIND"; "BREEZELESS"] ->
  snd (set_attribute d [("PROMPT_TONE", tone)]) = []
  /\ attr (fst (set_attribute d [("PROMPT_TONE", tone)])) "PROMPT_TONE" = tone
  /\ (exists m, snd (set_attribute d [("PROMPT_TONE", tone); (k, v)]) = [m]
                /\ field m "prompt_tone" = tone)
  /\ (exists m, snd (set_attribute d [(k, v); ("PROMPT_TONE", tone)]) = [m]
                /\ field m "prompt_tone" = attr d "PROMPT_TONE").
Proof.
  intros Hk.
  set (d1 := with_attributes d (obj_set (attributes d) "PROMPT_TONE" tone)).
  assert (Htone : attr d1 "PROMPT_TONE" = tone)
    by apply obj_get_set_same.
  assert (Hfirst : set_attribute_entry d "PROMPT_TONE" tone = (d1, None))
    by reflexivity.
  assert (Hcmd : forall d0,
             version_known d0 = version_known d ->
             exists m, set_attribute_entry d0 k v = (d0, Some m)
                       /\ field m "prompt_tone" = attr d0 "PROMPT_TONE").
  { intros d0 Hv. destruct Hk as [Hk|Hk].
    - exists (generic_set d0 k v). split.
      + apply set_attribute_entry_generic.
        unfold routed_to_generic in *. now rewrite Hv.
      + apply generic_set_prompt_tone.
    - simpl in Hk. destruct Hk as [<-|[<-|[]]]; eexists;
        (split; [reflexivity|]); reflexivity. }
  split; [reflexivity|]. split; [exact Htone|]. split.
  - destruct (Hcmd d1 eq_refl) as [m [Hm Hf]]. exists m.
    cbn [set_attribute]. rewrite Hfirst, Hm. cbn [snd].
    split; [reflexivity | congruence].
  - destruct (Hcmd d eq_refl) as [m [Hm Hf]]. exists m.
    cbn [set_attribute]. rewrite Hm, Hfirst. cbn [snd].
    split; [reflexivity | assumption].
Qed.

Lemma prompt_tone_is_folded_into_later_commands_witness :
  exists m,
    snd (set_attribute (new_device 3)
           [("PROMPT_TONE", VBool true); ("FAN_SPEED", VNum 60)]) = [m]
    /\ field m "prompt_tone" = VBool true.
Proof.
  exact (proj1 (proj2 (proj2
           (prompt_tone_is_folded_into_later_commands
              (new_device 3) (VBool true) "FAN_SPEED" (VNum 60)
              (or_introl eq_refl))))).
Defined.

(** X8.  A request sends at most one message for each of its entries,
    and every message it sends is a command, never a query. *)
Theorem set_attribute_sends_at_most_one_per_entry (entries : obj) :
  forall d,
    (List.length (snd (set_attribute d entries)) <= List.length entries)%nat
    /\ forall m, In m (snd (set_attribute d entries)) ->
                 command_class (msg_class m) = true.
Proof.
  induction entries as [|[k v] rest IH]; intros d; cbn [set_attribute].
  - split; [apply le_n | intros m []].
  - pose proof (proj2 (set_attribute_entry_lock d k v)) as Hclass.
    destruct (set_attribute_entry d k v) as [d1 message]. cbn [snd] in Hclass.
    destruct (IH d1) as [Hlen Hall].
    destruct (set_attribute d1 rest) as [d2 sent]. cbn [snd List.length] in *.
    destruct message as [m0|]; cbn [List.length]; split.
    + now apply le_n_S.
    + intros m [<-|Hin]; auto.
      destruct (Hclass m0 eq_refl) as [H|[H|H]]; rewrite H; auto.
      now destruct (used_subprotocol d).
    + now apply le_S.
    + assumption.
Qed.


(* ================================================================== *)
(** ** The protocol family and the captured flags *)

(** What a status update does to the two captured flags. *)
Lemma process_message_flags (d : device) (msg : response) :
  bb_sn8_flag (fst (process_message d msg))
  = (if resp_used_subprotocol msg
        && truthy (get_body_attribute msg "sn8_flag")
     then get_body_attribute msg "sn8_flag" else bb_sn8_flag d)
  /\ bb_timer (fst (process_message d msg))
     = (if resp_used_subprotocol msg
           && truthy (get_body_attribute msg "timer")
        then get_body_attribute msg "timer" else bb_timer d).
Proof.
  assert (Hlearn : forall d0,
             bb_sn8_flag (learn_fresh_air_version d0) = bb_sn8_flag d0
             /\ bb_timer (learn_fresh_air_version d0) = bb_timer d0).
  { intros d0. unfold learn_fresh_air_version.
    destruct (truthy (attr d0 "FRESH_AIR_1")); [now split|].
    destruct (truthy (attr d0 "FRESH_AIR_2")); now split. }
  unfold process_message. cbn [fst].
  match goal with
  | |- context [learn_fresh_air_version ?x] =>
      destruct (Hlearn x) as [-> ->]
  end.
  cbn [with_attributes bb_sn8_flag bb_timer]. unfold note_subprotocol.
  destruct (resp_used_subprotocol msg); cbn [andb bb_sn8_flag bb_timer];
    split; reflexivity.
Qed.

(** X10.  The flags captured from a sub-protocol response go out with
    the next command: after a marked response, [set_target_temperature]
    sends a sub-protocol set command whose sn8_flag and timer are the
    values the response carried if they are truthy, and the values
    captured before otherwise. *)
Theorem captured_flags_are_sent_back
  (d : device) (msg : response) (target_temperature mode : Z) :
  resp_used_subprotocol msg = true ->
  exists m,
    snd (set_target_temperature (fst (process_message d msg))
           target_temperature mode) = [m]
    /\ msg_class m = MessageSubProtocolSet
    /\ field m "sn8_flag"
       = (if truthy (get_body_attribute msg "sn8_flag")
          then get_body_attribute msg "sn8_flag" else bb_sn8_flag d)
    /\ field m "timer"
       = (if truthy (get_body_attribute msg "timer")
          then get_body_attribute msg "timer" else bb_timer d).
Proof.
  intros Hmark.
  pose proof (process_message_lock d msg) as Hlock.
  destruct (process_message_flags d msg) as [Hsn8 Htimer].
  rewrite Hmark in *. cbn [orb andb] in *.
  rewrite <- Hsn8, <- Htimer. clear Hsn8 Htimer.
  generalize dependent (fst (process_message d msg)). intros d' Hlock.
  unfold set_target_temperature, make_message_unique_set. rewrite Hlock.
  eexists. cbn [snd]. split; [reflexivity|].
  destruct (truthy (VNum mode)); repeat split.
Qed.

Lemma captured_flags_are_sent_back_witness :
  exists m,
    snd (set_target_temperature
           (fst (process_message (new_device 3)
                   (subprotocol_report [("sn8_flag", VBool true)])))
           22 0) = [m]
    /\ msg_class m = MessageSubProtocolSet
    /\ field m "sn8_flag" = VBool true
    /\ field m "timer" = VBool false.
Proof.
  exact (captured_flags_are_sent_back
           (new_device 3) (subprotocol_report [("sn8_flag", VBool true)])
           22 0 eq_refl).
Defined.

(** One operation that is not a marked response, on a device outside
    the sub-protocol. *)
Lemma step_unlocked (d : device) (o : operation) :
  used_subprotocol d = false ->
  is_marked_response o = false ->
  used_subprotocol (fst (step d o)) = false
  /\ bb_sn8_flag (fst (step d o)) = bb_sn8_flag d
  /\ bb_timer (fst (step d o)) = bb_timer d
  /\ forall m, In m (snd (step d o)) ->
               subprotocol_family (msg_class m) = false.
Proof.
  intros Hfree Ho.
  destruct o as [msg| |entries|t mode|h v]; cbn [step fst snd].
  - cbn [is_marked_response] in Ho.
    destruct (process_message_flags d msg) as [H1 H2].
    rewrite process_message_lock, H1, H2, Ho, Hfree.
    repeat split. intros m [].
  - repeat split; auto. unfold build_query. rewrite Hfree.
    intros m Hin.
    repeat (destruct Hin as [<-|Hin]; [reflexivity|]). destruct Hin.
  - destruct (set_attribute_device entries d)
      as [_ [_ [H3 [H4 [H5 _]]]]].
    cbv zeta in H3, H4, H5. rewrite H3, H4, H5.
    repeat split; auto. intros m Hin.
    destruct (proj2 (set_attribute_lock entries d) m Hin) as [H|[H|H]];
      rewrite H; try rewrite Hfree; reflexivity.
  - unfold set_target_temperature. cbn [fst snd].
    repeat split; auto. intros m [<-|[]].
    unfold make_message_unique_set. rewrite Hfree.
    now destruct (truthy (VNum mode)).
  - unfold set_swing. cbn [fst snd].
    repeat split; auto. intros m [<-|[]]. reflexivity.
Qed.

(** X12.  Nothing but a marked response selects the sub-protocol: on a
    device outside it, a session in which no processed response carries
    the marker leaves [used_subprotocol] false and the two captured
    flags untouched (even if responses carry sn8_flag or timer), issues
    no sub-protocol message, and ends with [build_query] returning the
    status query, the new-protocol query and the power query. *)
Theorem no_subprotocol_without_marker (ops : list operation) :
  forall d,
    used_subprotocol d = false ->
    forallb (fun o => negb (is_marked_response o)) ops = true ->
    let d' := fst (run d ops) in
    used_subprotocol d' = false
    /\ bb_sn8_flag d' = bb_sn8_flag d
    /\ bb_timer d' = bb_timer d
    /\ build_query d'
       = [ new_message MessageQuery [version d'];
           new_message MessageNewProtocolQuery [version d'];
           new_message MessagePowerQuery [version d'] ]
    /\ forall o m, In (o, m) (snd (run d ops)) ->
                   subprotocol_family (msg_class m) = false.
Proof.
  induction ops as [|o rest IH]; intros d Hfree Hops; cbn [run].
  - cbv zeta. cbn [fst snd]. unfold build_query. rewrite Hfree.
    repeat split; auto. intros o m [].
  - cbn [forallb] in Hops. apply andb_prop in Hops as [Ho Hrest].
    apply negb_true_iff in Ho.
    destruct (step_unlocked d o Hfree Ho) as [S1 [S2 [S3 S4]]].
    destruct (step d o) as [d1 out1]. cbn [fst snd] in *.
    specialize (IH d1 S1 Hrest). cbv zeta in IH.
    destruct (run d1 rest) as [d2 out2]. cbn [fst snd] in *.
    destruct IH as [I1 [I2 [I3 [I4 I5]]]].
    repeat split; try congruence.
    intros o' m Hin. apply in_app_or in Hin as [Hin|Hin].
    + apply in_map_iff in Hin as [m' [Heq Hin]].
      injection Heq as <- <-. now apply S4.
    + now apply (I5 o' m).
Qed.

Lemma no_subprotocol_without_marker_witness :
  bb_sn8_flag
    (fst (run (new_device 3)
            [ OpProcessMessage (status_report [("sn8_flag", VBool true)]);
              OpSetAttribute [("ECO_MODE", VBool true)] ]))
  = VBool false.
Proof.
  exact (proj1 (proj2
           (no_subprotocol_without_marker
              [ OpProcessMessage (status_report [("sn8_flag", VBool true)]);
                OpSetAttribute [("ECO_MODE", VBool true)] ]
              (new_device 3) eq_refl eq_refl))).
Defined.

(** X11.  A captured flag that is truthy stays truthy: no operation of
    a session clears sn8_flag or timer once a response has set it. *)
Theorem captured_flags_stay_set (ops : list operation) :
  forall d,
    (truthy (bb_sn8_flag d) = true ->
     truthy (bb_sn8_flag (fst (run d ops))) = true)
    /\ (truthy (bb_timer d) = true ->
        truthy (bb_timer (fst (run d ops))) = true).
Proof.
  induction ops as [|o rest IH]; intros d; cbn [run].
  - cbn [fst]. auto.
  - assert (Hstep : (truthy (bb_sn8_flag d) = true ->
                     truthy (bb_sn8_flag (fst (step d o))) = true)
                    /\ (truthy (bb_timer d) = true ->
                        truthy (bb_timer (fst (step d o))) = true)).
    { destruct o as [msg| |entries|t mode|h v]; cbn [step fst]; auto.
      - destruct (process_message_flags d msg) as [-> ->].
        split; intros H;
          match goal with
          | |- context [if ?c && truthy ?x then _ else _] =>
              destruct c; cbn [andb]; auto;
              destruct (truthy x) eqn:E; auto
          end.
      - destruct (set_attribute_device entries d)
          as [_ [_ [_ [H4 [H5 _]]]]].
        cbv zeta in H4, H5. now rewrite H4, H5. }
    destruct (step d o) as [d1 out1]. cbn [fst] in Hstep.
    specialize (IH d1).
    destruct (run d1 rest) as [d2 out2]. cbn [fst] in *.
    destruct Hstep, IH. auto.
Qed.

Lemma captured_flags_stay_set_witness :
  truthy (bb_sn8_flag
            (fst (process_message (new_device 3)
                    (subprotocol_report [("sn8_flag", VBool true)]))))
  = true
  /\ truthy
       (bb_sn8_flag
          (fst (run (fst (process_message (new_device 3)
                            (subprotocol_report [("sn8_flag", VBool true)])))
                  [ OpProcessMessage
                      (subprotocol_report [("sn8_flag", VBool false)]) ])))
     = true.
Proof.
  split; [reflexivity|].
  exact (proj1 (captured_flags_stay_set
                  [ OpProcessMessage
                      (subprotocol_report [("sn8_flag", VBool false)]) ]
                  (fst (process_message (new_device 3)
                          (subprotocol_report [("sn8_flag", VBool true)]))))
               eq_refl).
Defined.

(* ================================================================== *)
(** ** The fresh-air version over a session *)

Lemma process_message_version_matches (d : device) (msg : response) :
  version_matches_flags d ->
  version_matches_flags (fst (process_message d msg)).
Proof.
  intros Hd. unfold version_matches_flags in *.
  pose proof (fresh_air_version_process_message d msg) as Hv.
  cbv zeta in Hv. rewrite Hv. clear Hv.
  assert (Hk1 : ~ assigned_after_merge "FRESH_AIR_1")
    by (intros [H|[H|H]]; discriminate).
  assert (Hk2 : ~ assigned_after_merge "FRESH_AIR_2")
    by (intros [H|[H|H]]; discriminate).
  pose proof (process_message_truthy_stays d msg "FRESH_AIR_1" Hk1) as H1.
  pose proof (process_message_truthy_stays d msg "FRESH_AIR_2" Hk2) as H2.
  destruct (truthy (attr (fst (process_message d msg)) "FRESH_AIR_1")) eqn:E1;
    [left; auto|].
  destruct (truthy (attr (fst (process_message d msg)) "FRESH_AIR_2")) eqn:E2;
    [right; auto|].
  destruct (fresh_air_version d) as [n|]; [|exact I].
  destruct Hd as [[_ Hf]|[_ [_ Hf]]]; [apply H1 in Hf | apply H2 in Hf];
    discriminate.
Qed.

Lemma run_version_matches (ops : list operation) :
  forall d, version_matches_flags d ->
            version_matches_flags (fst (run d ops)).
Proof.
  induction ops as [|o rest IH]; intros d Hd; cbn [run]; [exact Hd|].
  assert (Hstep : version_matches_flags (fst (step d o))).
  { destruct o as [msg| |entries|t mode|h v]; cbn [step fst]; auto.
    - now apply process_message_version_matches.
    - destruct (set_attribute_device entries d) as [_ [Hv [_ [_ [_ [Ha _]]]]]].
      cbv zeta in Hv, Ha. unfold version_matches_flags in *.
      rewrite Hv, !Ha by discriminate. exact Hd. }
  destruct (step d o) as [d1 out1]. cbn [fst] in Hstep.
  specialize (IH d1 Hstep).
  now destruct (run d1 rest) as [d2 out2].
Qed.

(** X13.  In every session of a new device the fresh-air version is
    undefined, 1 or 2; once it is 1 it stays 1, and once it is 2 it can
    only stay 2 or become 1. *)
Theorem fresh_air_version_one_is_final
  (ver : Z) (ops later : list operation) :
  let d := fst (run (new_device ver) ops) in
  let d' := fst (run d later) in
  (fresh_air_version d = None \/ fresh_air_version d = Some 1
   \/ fresh_air_version d = Some 2)
  /\ (fresh_air_version d = Some 1 -> fresh_air_version d' = Some 1)
  /\ (fresh_air_version d = Some 2 ->
      fresh_air_version d' = Some 1 \/ fresh_air_version d' = Some 2).
Proof.
  intros d d'.
  assert (Hd : version_matches_flags d)
    by (apply run_version_matches; exact I).
  assert (Hd' : version_matches_flags d')
    by (apply run_version_matches; exact Hd).
  assert (Hknown : version_known d = true -> version_known d' = true)
    by apply version_known_run.
  unfold version_matches_flags, version_known in *.
  split; [|split].
  - destruct (fresh_air_version d) as [n|]; auto.
    destruct Hd as [[-> _]|[-> _]]; auto.
  - intros H1. rewrite H1 in Hd, Hknown.
    destruct Hd as [[_ Hf]|[Hn _]]; [|discriminate].
    assert (Hf' : truthy (attr d' "FRESH_AIR_1") = true).
    { apply (run_attribute later "FRESH_AIR_1" d); auto.
      - intros [H|[H|H]]; discriminate.
      - discriminate. }
    specialize (Hknown eq_refl).
    destruct (fresh_air_version d') as [n|]; [|discriminate].
    destruct Hd' as [[-> _]|[_ [Hn _]]]; [reflexivity | congruence].
  - intros H2. rewrite H2 in Hknown. specialize (Hknown eq_refl).
    destruct (fresh_air_version d') as [n|]; [|discriminate].
    destruct Hd' as [[-> _]|[-> _]]; auto.
Qed.

Lemma fresh_air_version_one_is_final_witness :
  fresh_air_version
    (fst (run (new_device 3)
            [ OpProcessMessage (status_report [("FRESH_AIR_1", VBool true)]) ]))
  = Some 1
  /\ fresh_air_version
       (fst (run (fst (run (new_device 3)
                         [ OpProcessMessage
                             (status_report [("FRESH_AIR_1", VBool true)]) ]))
               [ OpProcessMessage
                   (status_report [("FRESH_AIR_1", VBool false);
                                   ("FRESH_AIR_2", VBool true)]) ]))
     = Some 1.
Proof.
  split; [reflexivity|].
  exact (proj1 (proj2
           (fresh_air_version_one_is_final
              3
              [ OpProcessMessage
                  (status_report [("FRESH_AIR_1", VBool true)]) ]
              [ OpProcessMessage
                  (status_report [("FRESH_AIR_1", VBool false);
                                  ("FRESH_AIR_2", VBool true)]) ]))
               eq_refl).
Defined.

(* ================================================================== *)
(** ** The commands, field by field *)

(** Proves [field m (toLowerCase name) = ...] for every [name] of a list
    of literals [H : In name [...]]. *)
Ltac each_name H tac :=
  simpl in H;
  repeat (destruct H as [<-|H]; [tac|]);
  try contradiction.

(** X14.  A request for a member of the exclusive group, whatever the
    requested value, sends one status-set command of the selected
    family in which the requested member has the requested value, every
    other member that the family has is false, also when it is stored
    as true, and every other field is the stored attribute.  Switching
    one mode off therefore switches the others off in the command. *)
Theorem exclusive_mode_request_clears_group
  (d : device) (k : string) (v : value) :
  In k exclusive_modes ->
  exists m,
    set_attribute d [(k, v)] = (d, [m])
    /\ msg_class m = status_set_class (used_subprotocol d)
    /\ field m (toLowerCase k) = v
    /\ (forall k', In k' (family_modes (used_subprotocol d)) -> k' <> k ->
                   field m (toLowerCase k') = VBool false)
    /\ (forall name, In name (copied_attributes (used_subprotocol d)) ->
                     ~ In name exclusive_modes ->
                     field m (toLowerCase name) = attr d name).
Proof.
  intros Hin. exists (generic_set d k v). split.
  - simpl. now rewrite set_attribute_entry_generic
      by now apply exclusive_modes_routed.
  - unfold generic_set, make_message_unique_set, family_modes,
      copied_attributes.
    destruct (used_subprotocol d);
      each_name Hin
        ltac:(split; [reflexivity|]; split; [reflexivity|]; split;
              [ intros k' Hk' Hne;
                each_name Hk' ltac:(first [reflexivity | congruence])
              | intros name Hname Hout;
                each_name Hname
                  ltac:(first [ reflexivity
                              | exfalso; apply Hout; simpl; tauto ]) ]).
Qed.

Lemma exclusive_mode_request_clears_group_witness :
  exists m,
    set_attribute running_device [("ECO_MODE", VBool false)]
    = (running_device, [m])
    /\ field m "sleep_mode" = VBool false
    /\ field m "power" = VBool true.
Proof.
  assert (Hin : In "ECO_MODE" exclusive_modes) by (simpl; tauto).
  destruct (exclusive_mode_request_clears_group
              running_device "ECO_MODE" (VBool false) Hin)
    as [m [Hcall [_ [_ [Hgroup Hrest]]]]].
  exists m. split; [exact Hcall|]. split.
  - apply (Hgroup "SLEEP_MODE"); [simpl; tauto | discriminate].
  - apply (Hrest "POWER"); [simpl; tauto|].
    simpl. intros H.
    repeat (destruct H as [H|H]; [discriminate|]). exact H.
Defined.

(** X18.  [set_target_temperature] sends one status-set command of the
    selected family that carries the given temperature; with a mode
    other than 0 it carries that mode and power on, with mode 0 the
    stored mode and the stored power; every other field is the stored
    attribute, and the device is unchanged. *)
Theorem set_target_temperature_command
  (d : device) (target_temperature mode : Z) :
  exists m,
    set_target_temperature d target_temperature mode = (d, [m])
    /\ msg_class m = status_set_class (used_subprotocol d)
    /\ field m "target_temperature" = VNum target_temperature
    /\ field m "mode" = (if mode =? 0 then attr d "MODE" else VNum mode)
    /\ field m "power" = (if mode =? 0 then attr d "POWER" else VBool true)
    /\ (forall name, In name (copied_attributes (used_subprotocol d)) ->
                     ~ In name ["TARGET_TEMPERATURE"; "MODE"; "POWER"] ->
                     field m (toLowerCase name) = attr d name).
Proof.
  unfold set_target_temperature, make_message_unique_set, copied_attributes.
  cbn [truthy]. eexists. split; [reflexivity|].
  destruct (used_subprotocol d), (mode =? 0); cbn [negb];
    (split; [reflexivity|]); (split; [reflexivity|]);
    (split; [reflexivity|]); (split; [reflexivity|]);
    intros name Hname Hout;
    each_name Hname
      ltac:(first [reflexivity | exfalso; apply Hout; simpl; tauto]).
Qed.

(** X19.  [set_swing] sends the status-set command of the general
    family whether or not the device is in the sub-protocol: it carries
    the two requested swing values, every other field of the general
    command is the stored attribute, the captured sub-protocol flags are
    not in it, and the device is unchanged. *)
Theorem set_swing_command (d : device) (swing_horizontal swing_vertical : bool) :
  exists m,
    set_swing d swing_horizontal swing_vertical = (d, [m])
    /\ msg_class m = MessageGeneralSet
    /\ field m "swing_horizontal" = VBool swing_horizontal
    /\ field m "swing_vertical" = VBool swing_vertical
    /\ field m "sn8_flag" = VUndef
    /\ field m "timer" = VUndef
    /\ (forall name, In name (copied_attributes false) ->
                     ~ In name ["SWING_HORIZONTAL"; "SWING_VERTICAL"] ->
                     field m (toLowerCase name) = attr d name).
Proof.
  unfold set_swing, copied_attributes. eexists.
  split; [reflexivity|]. repeat (split; [reflexivity|]).
  intros name Hname Hout.
  each_name Hname
    ltac:(first [reflexivity | exfalso; apply Hout; simpl; tauto]).
Qed.

(* ================================================================== *)
(** ** Fresh-air requests with the version known *)

(** X15.  With the fresh-air version known, a request for FRESH_AIR_MODE
    by the name of a tier sends one new-protocol command whose
    version-tagged field is the pair (true, speed of that tier) for the
    five tiers above zero, and (false, stored fan speed) for "Off": the
    name is resolved through the table to its own speed, and switching
    off keeps the stored speed. *)
Theorem fresh_air_mode_by_name (d : device) (speed : Z) (name : string) :
  version_known d = true ->
  In (speed, name) FRESH_AIR_FAN_SPEEDS ->
  set_attribute d [("FRESH_AIR_MODE", VStr name)]
  = (d, [ set_field (new_message MessageNewProtocolSet [version d])
            (version_key d)
            (if 0 <? speed then VPair (VBool true) (VNum speed)
             else VPair (VBool false) (attr d "FRESH_AIR_FAN_SPEED")) ]).
Proof.
  intros Hv Hin. simpl in Hin.
  repeat (destruct Hin as [Heq|Hin];
          [ injection Heq as <- <-;
            cbn [set_attribute]; unfold set_attribute_entry;
            cbn [includes existsb sensor_only String.eqb Ascii.eqb
                 Bool.eqb negb orb andb];
            rewrite Hv; reflexivity
          | ]).
  contradiction.
Qed.

Lemma fresh_air_mode_by_name_witness :
  set_attribute (with_fresh_air_version (new_device 3) (Some 1))
                [("FRESH_AIR_MODE", VStr "Full")]
  = (with_fresh_air_version (new_device 3) (Some 1),
     [ set_field (new_message MessageNewProtocolSet [3]) "1"
         (VPair (VBool true) (VNum 100)) ]).
Proof.
  apply (fresh_air_mode_by_name
           (with_fresh_air_version (new_device 3) (Some 1)) 100 "Full").
  - reflexivity.
  - simpl. tauto.
Defined.

(** X17.  With the fresh-air version known, a request for FRESH_AIR_MODE
    with a truthy value that is not the name of a tier sends nothing and
    changes nothing. *)
Theorem fresh_air_mode_unknown_name_is_dropped (d : device) (v : value) :
  version_known d = true ->
  truthy v = true ->
  (forall name, In name (Object_values FRESH_AIR_FAN_SPEEDS) ->
                v <> VStr name) ->
  set_attribute d [("FRESH_AIR_MODE", v)] = (d, []).
Proof.
  intros Hv Ht Hname.
  assert (Hno : existsb (fun s => strict_eq_str s v)
                        (Object_values FRESH_AIR_FAN_SPEEDS) = false).
  { destruct (existsb (fun s => strict_eq_str s v)
                      (Object_values FRESH_AIR_FAN_SPEEDS)) eqn:E; auto.
    apply existsb_exists in E as [name [Hin Heq]].
    exfalso. apply (Hname name Hin).
    destruct v; try discriminate. simpl in Heq.
    apply String.eqb_eq in Heq. now subst. }
  cbn [set_attribute]. unfold set_attribute_entry.
  cbn [includes existsb sensor_only String.eqb Ascii.eqb Bool.eqb
       negb orb andb].
  now rewrite Hv, Hno, Ht.
Qed.

Lemma fresh_air_mode_unknown_name_is_dropped_witness :
  set_attribute (with_fresh_air_version (new_device 3) (Some 2))
                [("FRESH_AIR_MODE", VStr "Turbo")]
  = (with_fresh_air_version (new_device 3) (Some 2), []).
Proof.
  apply fresh_air_mode_unknown_name_is_dropped.
  - reflexivity.
  - reflexivity.
  - intros name Hin. simpl in Hin.
    repeat (destruct Hin as [<-|Hin]; [discriminate|]). contradiction.
Defined.

(* ================================================================== *)
(** * Properties of the platform *)

(** ** Credentials as hexadecimal text *)

Lemma Buffer_from_hex_byte (x : Byte.byte) (r : string) :
  Buffer_from_hex
    (String (hex_digit (N.div (Byte.to_N x) 16))
            (String (hex_digit (N.modulo (Byte.to_N x) 16)) r))
  = x :: Buffer_from_hex r.
Proof.
  destruct x; reflexivity.
Qed.

Lemma Buffer_from_hex_toString_hex (b : buffer) :
  Buffer_from_hex (toString_hex b) = b.
Proof.
  induction b as [|x r IH]; [reflexivity|].
  cbn [toString_hex]. now rewrite Buffer_from_hex_byte, IH.
Qed.

(** ** The pairing loop *)

(** The loop, started as [addDevice] starts it, turn by turn. *)
Lemma pairing_loop_two_turns
  (fuel : nat) (env : environment) (uuid : string) (events : list event) :
  (2 <= fuel)%nat ->
  pairing_loop fuel env uuid (mkPairing 0 false empty_context events)
  = pairing_loop 2 env uuid (mkPairing 0 false empty_context events).
Proof.
  intros Hfuel.
  destruct fuel as [|[|fuel]]; [inversion Hfuel | |].
  { apply le_S_n in Hfuel. inversion Hfuel. }
  cbn [pairing_loop p_i p_connected p_context p_events
       Z.leb Z.eqb Z.compare andb negb Z.add Pos.add].
  destruct (cloud_getToken env little) as [[t1 k1]|];
    try (destruct (device_connect env 0 t1 k1) as [[|]|]);
    try reflexivity;
    (destruct (cloud_getToken env big) as [[t2 k2]|];
     try (destruct (device_connect env 1 t2 k2) as [c|]);
     try reflexivity; now destruct fuel).
Qed.

(** Splits the cases of [addDevice] on a new device: the login step,
    the device factory, the two token requests and the two connects. *)
Ltac pairing_cases env :=
  unfold addDevice;
  destruct (cloud_loggedIn env), (cloud_login env) as [[]|],
           (device_supported env);
  try rewrite pairing_loop_two_turns by assumption;
  cbn [pairing_loop p_i p_connected p_context p_events
       Z.leb Z.eqb Z.compare andb negb Z.add Pos.add];
  destruct (cloud_getToken env little) as [[t1 k1]|] eqn:Hlittle;
  try (destruct (device_connect env 0 t1 k1) as [[|]|] eqn:Hfirst);
  destruct (cloud_getToken env big) as [[t2 k2]|] eqn:Hbig;
  try (destruct (device_connect env 1 t2 k2) as [[|]|] eqn:Hsecond).

(** X20.  For a new device the pairing loop asks for the little-endian
    token first and for the big-endian token second, and for no third:
    it stops by itself within two turns.  The big-endian token is
    requested exactly when the first turn has not ended the loop, that
    is, when there was no little-endian token or the device refused it;
    no token is requested when the login fails or the device type is
    not supported. *)
Theorem pairing_tries_little_then_big
  (fuel : nat) (env : environment) (device_info : DeviceInfo)
  (uuid : string) :
  (2 <= fuel)%nat ->
  addDevice fuel env device_info uuid None
  = addDevice 2 env device_info uuid None
  /\ token_requests (fst (addDevice fuel env device_info uuid None))
     = if login_passes env && device_supported env
       then if little_settles env then [little] else [little; big]
       else [].
Proof.
  intros Hfuel. unfold login_passes, little_settles.
  pairing_cases env; split; reflexivity.
Qed.

Lemma pairing_tries_little_then_big_witness :
  token_requests
    (fst (addDevice 5
            (mkEnvironment false (Some tt)
               (fun e => Some ([Byte.x01], [Byte.x02]))
               true
               (fun attempt _ _ => Some (attempt =? 1)))
            (mkDeviceInfo "10.0.0.2" 6444 1 "ac" "sn" "AC" 172 3)
            "uuid-1" None))
  = [little; big].
Proof.
  assert (Hfuel : (2 <= 5)%nat) by (repeat constructor).
  exact (proj2 (pairing_tries_little_then_big
                  5
                  (mkEnvironment false (Some tt)
                     (fun e => Some ([Byte.x01], [Byte.x02]))
                     true
                     (fun attempt _ _ => Some (attempt =? 1)))
                  (mkDeviceInfo "10.0.0.2" 6444 1 "ac" "sn" "AC" 172 3)
                  "uuid-1" Hfuel)).
Defined.

(** X21.  The login gate is released on every path.  For a new device
    the call takes the gate first, logs in inside it only if the cloud
    is not logged in, and releases it before anything else happens,
    also when the login throws and the call rejects; for a cached
    accessory the call takes no gate, makes no cloud call and never
    rejects. *)
Theorem login_gate_is_always_released
  (fuel : nat) (env : environment) (device_info : DeviceInfo)
  (uuid : string) (existing : option context) :
  (2 <= fuel)%nat ->
  let events := fst (addDevice fuel env device_info uuid existing) in
  match existing with
  | Some _ =>
      forallb (fun e => negb (is_cloud_call e)) events = true
      /\ snd (addDevice fuel env device_info uuid existing) = Resolved
  | None =>
      exists rest,
        events
        = (EvAcquire
             :: (if cloud_loggedIn env then [] else [EvLogin])
             ++ EvRelease :: rest)%list
        /\ forallb (fun e => negb (is_gate_event e)) rest = true
        /\ (login_passes env = false ->
            rest = []
            /\ snd (addDevice fuel env device_info uuid existing) = Rejected)
  end.
Proof.
  intros Hfuel. cbv zeta. destruct existing as [ctx|].
  - unfold addDevice.
    destruct (device_supported env); [|split; reflexivity].
    destruct (ctx_token ctx), (ctx_key ctx); try (split; reflexivity).
    match goal with
    | |- context [device_connect ?e ?a ?t ?k] =>
        destruct (device_connect e a t k)
    end; split; reflexivity.
  - unfold login_passes.
    pairing_cases env; eexists; cbn [app fst snd orb];
      (split; [reflexivity|]); split; try reflexivity;
      intros H; try discriminate H; split; reflexivity.
Qed.

Lemma login_gate_is_always_released_witness :
  exists rest,
    fst (addDevice 2
           (mkEnvironment false None (fun _ => None) true
                          (fun _ _ _ => Some true))
           (mkDeviceInfo "10.0.0.2" 6444 1 "ac" "sn" "AC" 172 3)
           "uuid-1" None)
    = (EvAcquire :: [EvLogin] ++ EvRelease :: rest)%list
    /\ forallb (fun e => negb (is_gate_event e)) rest = true
    /\ (false = false ->
        rest = []
        /\ snd (addDevice 2
                  (mkEnvironment false None (fun _ => None) true
                                 (fun _ _ _ => Some true))
                  (mkDeviceInfo "10.0.0.2" 6444 1 "ac" "sn" "AC" 172 3)
                  "uuid-1" None) = Rejected).
Proof.
  exact (login_gate_is_always_released
           2
           (mkEnvironment false None (fun _ => None) true
                          (fun _ _ _ => Some true))
           (mkDeviceInfo "10.0.0.2" 6444 1 "ac" "sn" "AC" 172 3)
           "uuid-1" None (le_n 2)).
Defined.

(** X22.  An accessory is registered only for a device that connected,
    and with the credentials that connected: if a call for a new device
    registers an accessory, then one of the two token requests returned
    a token and a key with which the device connected, the registered
    context holds exactly these two as hexadecimal text, and a later
    call that finds this accessory in the cache hands the same bytes
    back to the device before it connects. *)
Theorem registered_credentials_are_restored
  (fuel : nat) (env : environment) (device_info : DeviceInfo)
  (uuid registered : string) (ctx : context)
  (later_fuel : nat) (later : environment) (later_info : DeviceInfo) :
  (2 <= fuel)%nat ->
  In (EvRegister registered ctx)
     (fst (addDevice fuel env device_info uuid None)) ->
  device_supported later = true ->
  exists endianess attempt token key rest,
    cloud_getToken env endianess = Some (token, key)
    /\ device_connect env attempt token key = Some true
    /\ ((endianess = little /\ attempt = 0)
        \/ (endianess = big /\ attempt = 1))
    /\ registered = uuid
    /\ ctx = mkContext (Some (toString_hex token)) (Some (toString_hex key))
                       (Some uuid) (Some "main")
    /\ fst (addDevice later_fuel later later_info registered (Some ctx))
       = (EvSetCredentials token key :: EvConnect 0 :: rest)%list.
Proof.
  intros Hfuel Hin Hlater.
  assert (Hshape :
            exists endianess attempt token key,
              cloud_getToken env endianess = Some (token, key)
              /\ device_connect env attempt token key = Some true
              /\ ((endianess = little /\ attempt = 0)
                  \/ (endianess = big /\ attempt = 1))
              /\ registered = uuid
              /\ ctx = mkContext (Some (toString_hex token))
                                 (Some (toString_hex key))
                                 (Some uuid) (Some "main")).
  { revert Hin. pairing_cases env; intros Hin; cbn in Hin;
      repeat match goal with
             | H : _ \/ _ |- _ => destruct H as [H|H]
             end;
      try discriminate; try contradiction;
      injection Hin as <- <-;
      first [ exists little, 0, t1, k1; repeat split; auto; fail
            | exists big, 1, t2, k2; repeat split; auto; fail ]. }
  destruct Hshape as [e [a [token [key [H1 [H2 [H3 [H4 H5]]]]]]]].
  exists e, a, token, key.
  subst ctx. unfold addDevice. rewrite Hlater.
  cbn [ctx_token ctx_key]. rewrite !Buffer_from_hex_toString_hex.
  destruct (device_connect later 0 token key);
    eexists; repeat split; eauto.
Qed.

Lemma registered_credentials_are_restored_witness :
  exists endianess attempt token key rest,
    cloud_getToken
      (mkEnvironment true None
         (fun e => Some ([Byte.xab; Byte.x0f], [Byte.x00; Byte.xff]))
         true (fun _ _ _ => Some true))
      endianess = Some (token, key)
    /\ device_connect
         (mkEnvironment true None
            (fun e => Some ([Byte.xab; Byte.x0f], [Byte.x00; Byte.xff]))
            true (fun _ _ _ => Some true))
         attempt token key = Some true
    /\ ((endianess = little /\ attempt = 0)
        \/ (endianess = big /\ attempt = 1))
    /\ "uuid-1" = "uuid-1"
    /\ mkContext (Some "ab0f") (Some "00ff") (Some "uuid-1") (Some "main")
       = mkContext (Some (toString_hex token)) (Some (toString_hex key))
                   (Some "uuid-1") (Some "main")
    /\ fst (addDevice 2
              (mkEnvironment true None (fun _ => None) true
                             (fun _ _ _ => None))
              (mkDeviceInfo "10.0.0.2" 6444 1 "ac" "sn" "AC" 172 3)
              "uuid-1"
              (Some (mkContext (Some "ab0f") (Some "00ff")
                               (Some "uuid-1") (Some "main"))))
       = (EvSetCredentials token key :: EvConnect 0 :: rest)%list.
Proof.
  apply (registered_credentials_are_restored
           2
           (mkEnvironment true None
              (fun e => Some ([Byte.xab; Byte.x0f], [Byte.x00; Byte.xff]))
              true (fun _ _ _ => Some true))
           (mkDeviceInfo "10.0.0.2" 6444 1 "ac" "sn" "AC" 172 3)
           "uuid-1" "uuid-1"
           (mkContext (Some "ab0f") (Some "00ff") (Some "uuid-1")
                      (Some "main"))
           2
           (mkEnvironment true None (fun _ => None) true (fun _ _ _ => None))
           (mkDeviceInfo "10.0.0.2" 6444 1 "ac" "sn" "AC" 172 3)
           (le_n 2)).
  - cbn. auto 10.
  - reflexivity.
Defined.

(* ================================================================== *)
(** * The same response twice *)

(** X16.  Processing the same response a second time changes no
    attribute outside the three assigned names, and the second
    change-set reports these names exactly as the first did: a field is
    reported whenever the response carries it with a truthy value for
    an attribute of the device, whether or not the stored value
    changed. *)
Theorem process_message_twice (d : device) (msg : response) (k : string) :
  ~ assigned_after_merge k ->
  let first := process_message d msg in
  let second := process_message (fst first) msg in
  attr (fst second) k = attr (fst first) k
  /\ includes (Object_keys (snd second)) k
     = includes (Object_keys (snd first)) k
  /\ obj_get (snd second) k = obj_get (snd first) k.
Proof.
  intros Hk. cbv zeta.
  destruct (process_message_named_field d msg k Hk) as [A1 [N1 V1]].
  destruct (process_message_named_field (fst (process_message d msg)) msg k Hk)
    as [A2 [N2 V2]].
  cbv zeta in A1, N1, V1, A2, N2, V2.
  assert (Hkeys : includes
                    (Object_keys (attributes (fst (process_message d msg)))) k
                  = includes (Object_keys (attributes d)) k).
  { destruct (process_message_keys d msg k) as [K1 K2].
    destruct (includes (Object_keys (attributes d)) k) eqn:E.
    - apply includes_In. apply K1. now apply includes_In.
    - destruct (includes
                  (Object_keys (attributes (fst (process_message d msg)))) k)
        eqn:E'; auto.
      apply includes_In in E'. apply K2 in E' as [E'|E']; [|tauto].
      apply includes_In in E'. congruence. }
  rewrite Hkeys in A2, N2, V2.
  rewrite A2, N2, V2, A1, N1, V1.
  destruct (includes (Object_keys (attributes d)) k
            && truthy (get_body_attribute msg k)); auto.
Qed.

Lemma process_message_twice_witness :
  includes
    (Object_keys
       (snd (process_message
               (fst (process_message running_device
                       (status_report [("FAN_SPEED", VNum 60)])))
               (status_report [("FAN_SPEED", VNum 60)]))))
    "FAN_SPEED" = true.
Proof.
  assert (Hk : ~ assigned_after_merge "FAN_SPEED")
    by (intros [H|[H|H]]; discriminate).
  rewrite (proj1 (proj2 (process_message_twice
                           running_device
                           (status_report [("FAN_SPEED", VNum 60)])
                           "FAN_SPEED" Hk))).
  reflexivity.
Defined.
